(** * tsch-sim example campaigns: topology generation and metric aggregation

    A shallow embedding of three Python scripts of the repository:

    - [examples/niharika-ttp-smart-home/experiment.py]            (module [SmartHome])
    - [examples/niharika-ttp-smart-home/generate-network-with-mobility.py]
                                                                    (module [Mobility])
    - [examples/result-visualization/experiment.py]               (module [ResultViz])

    Python lists are Rocq lists, [list.append] is [++ [x]], a [for] loop is a
    left fold over the iterated sequence with the loop-carried variables as
    accumulator, a raised exception is the [Raise] branch of an error monad,
    and a [dict] is an association list in insertion order with distinct
    keys, so that a loop over the keys of a dict that indexes the dict by
    the key is a loop over its items.  Calls into the plotting library and
    the launch of the simulator are outside the model. *)

From Stdlib Require Import List String Ascii ZArith Lia Bool PeanoNat.
From Stdlib Require Import DecimalString DecimalNat.
From Stdlib Require Import PrimFloat FloatOps SpecFloat.
Import ListNotations.

Set Implicit Arguments.
Local Open Scope nat_scope.
Local Open Scope string_scope.
Local Open Scope list_scope.

(* ================================================================== *)
(** * Python run-time notions shared by the three scripts *)
(* ================================================================== *)

Module Py.

(** The exceptions the modelled code can raise. *)
Inductive exn : Set :=
| KeyError
| TypeError
| ValueError
| ZeroDivisionError
| OverflowError
| FileNotFoundError.

Inductive result (A : Type) : Type :=
| Ok (a : A)
| Raise (e : exn).
Arguments Ok {A} a.
Arguments Raise {A} e.

Definition bind {A B : Type} (m : result A) (k : A -> result B) : result B :=
  match m with
  | Ok a => k a
  | Raise e => Raise e
  end.

Notation "x <- m ;; k" := (bind m (fun x => k))
  (at level 61, m at next level, right associativity).

(** [for x in xs: body] over loop-carried state [s], no exception possible. *)
Definition for_in {A S : Type} (xs : list A) (body : A -> S -> S) (s : S) : S :=
  fold_left (fun acc x => body x acc) xs s.

(** [range(n)] and [range(lo, hi)]. *)
Definition range (n : nat) : list nat := seq 0 n.
Definition range2 (lo hi : nat) : list nat := seq lo (hi - lo).

(** [for x in xs: body] where the body may raise: the first exception
    leaves the loop. *)
Fixpoint for_inM {A S : Type} (xs : list A) (body : A -> S -> result S) (s : S)
  : result S :=
  match xs with
  | [] => Ok s
  | x :: xs' => bind (body x s) (for_inM xs' body)
  end.

(** ** Dictionaries with string keys, in insertion order *)

Definition dict (V : Type) : Type := list (string * V).

(** [d[k]], raising [KeyError] on a missing key. *)
Fixpoint dict_get {V : Type} (d : dict V) (k : string) : result V :=
  match d with
  | [] => Raise KeyError
  | (k', v) :: d' => if String.eqb k' k then Ok v else dict_get d' k
  end.

(** [d[k] = v]: an existing key keeps its place, a new one goes last. *)
Fixpoint dict_set {V : Type} (d : dict V) (k : string) (v : V) : dict V :=
  match d with
  | [] => [(k, v)]
  | (k', v') :: d' =>
      if String.eqb k' k then (k', v) :: d' else (k', v') :: dict_set d' k v
  end.

Definition dict_keys {V : Type} (d : dict V) : list string := map fst d.

(** [x in [a, b, ...]] for strings. *)
Definition str_in (x : string) (xs : list string) : bool :=
  existsb (String.eqb x) xs.

(** ** Strings *)

Definition newline : string := String (ascii_of_nat 10) EmptyString.

(** [str(n)] for integers. *)
Definition str_of_nat (n : nat) : string := NilEmpty.string_of_uint (Nat.to_uint n).
Definition str_of_Z (z : Z) : string := NilZero.string_of_int (Z.to_int z).

(** [sep.join(xs)]. *)
Definition join (sep : string) (xs : list string) : string := String.concat sep xs.

(** [sub in s]. *)
Fixpoint contains (sub s : string) : bool :=
  match s with
  | EmptyString => String.prefix sub EmptyString
  | String _ s' => String.prefix sub s || contains sub s'
  end.

(** [s.replace(old, new)] for a non-empty [old]: occurrences are replaced
    from the left and do not overlap; [skip] counts the characters of a
    matched occurrence still to be dropped. *)
Fixpoint replace_from (skip : nat) (old new s : string) : string :=
  match s with
  | EmptyString => EmptyString
  | String c s' =>
      match skip with
      | S k => replace_from k old new s'
      | O =>
          if String.prefix old s
          then new ++ replace_from (String.length old - 1) old new s'
          else String c (replace_from 0 old new s')
      end
  end.

(** With an empty [old], Python puts [new] before every character and at
    the end. *)
Fixpoint intersperse (new s : string) : string :=
  match s with
  | EmptyString => new
  | String c s' => new ++ String c (intersperse new s')
  end.

Definition replace (old new s : string) : string :=
  match old with
  | EmptyString => intersperse new s
  | _ => replace_from 0 old new s
  end.

(** [s.lower()] on ASCII letters. *)
Definition ascii_lower (c : ascii) : ascii :=
  let n := nat_of_ascii c in
  if Nat.leb 65 n && Nat.leb n 90 then ascii_of_nat (n + 32) else c.

Fixpoint str_lower (s : string) : string :=
  match s with
  | EmptyString => EmptyString
  | String c s' => String (ascii_lower c) (str_lower s')
  end.

Definition quote : string := String (ascii_of_nat 34) EmptyString.

(** A string literal in double quotes, as the f-strings and [format] calls
    of the scripts write it. *)
Definition quoted (s : string) : string := quote ++ s ++ quote.

(** ** Floating-point operations used by the topology generators

    [math.cos], [math.sin], [math.pi], [round] and the arithmetic of
    Python floats are taken as an interface: the properties proved about
    node numbering hold for every implementation of it.  The divisions of
    the generators sit inside loops over [range(divisor)], so the divisor
    is never zero there. *)
Record float_ops (F : Type) : Type := {
  f_int : Z -> F;             (* an int operand converted to float *)
  f_add : F -> F -> F;
  f_mul : F -> F -> F;
  f_div : F -> F -> F;
  f_pi : F;                   (* math.pi *)
  f_cos : F -> F;             (* math.cos *)
  f_sin : F -> F;             (* math.sin *)
  f_round : F -> Z            (* round(x) *)
}.

(** ** Numbers held in result trees

    The arithmetic of the metric pipeline is taken as an interface,
    implemented below by IEEE binary64, which is what CPython computes
    with.  [n_div] is only applied to a divisor on which [n_is_zero] is
    false. *)
Record num_ops (N : Type) : Type := {
  n_int : Z -> N;             (* an int such as 0 or len(xs) *)
  n_add : N -> N -> N;
  n_sub : N -> N -> N;
  n_mul : N -> N -> N;
  n_div : N -> N -> N;
  n_is_zero : N -> bool;
  n_ltb : N -> N -> bool;
  n_floor : N -> result Z;    (* math.floor *)
  n_ceil : N -> result Z      (* math.ceil *)
}.

(** A leaf of a loaded JSON tree, or any Python value flowing through the
    aggregation: a number or [None]. *)
Inductive value (N : Type) : Type :=
| VNum (x : N)
| VNone.
Arguments VNum {N} x.
Arguments VNone {N}.

Section Values.
Context {N : Type} (ops : num_ops N).

(** [a + b], [a - b], [a / b], [a < b]: [None] operands raise [TypeError]. *)
Definition py_add (a b : value N) : result (value N) :=
  match a, b with
  | VNum x, VNum y => Ok (VNum (n_add ops x y))
  | _, _ => Raise TypeError
  end.
Definition py_sub (a b : value N) : result (value N) :=
  match a, b with
  | VNum x, VNum y => Ok (VNum (n_sub ops x y))
  | _, _ => Raise TypeError
  end.
Definition py_mul (a b : value N) : result (value N) :=
  match a, b with
  | VNum x, VNum y => Ok (VNum (n_mul ops x y))
  | _, _ => Raise TypeError
  end.
Definition py_truediv (a b : value N) : result (value N) :=
  match a, b with
  | VNum x, VNum y =>
      if n_is_zero ops y then Raise ZeroDivisionError else Ok (VNum (n_div ops x y))
  | _, _ => Raise TypeError
  end.
Definition py_lt (a b : value N) : result bool :=
  match a, b with
  | VNum x, VNum y => Ok (n_ltb ops x y)
  | _, _ => Raise TypeError
  end.

(** The truth value of [v] in a condition: zero and [None] are false. *)
Definition py_bool (v : value N) : bool :=
  match v with
  | VNum x => negb (n_is_zero ops x)
  | VNone => false
  end.

(** [len(xs)] as a number. *)
Definition py_len {A : Type} (xs : list A) : value N :=
  VNum (n_int ops (Z.of_nat (List.length xs))).

(** [sum(xs)]: starts from the int 0 and adds from the left. *)
Definition py_sum (xs : list (value N)) : result (value N) :=
  for_inM xs (fun x acc => py_add acc x) (VNum (n_int ops 0)).

(** [min(xs)] and [max(xs)]: [ValueError] on an empty list; the first
    element is the candidate and a later one replaces it when it
    compares strictly smaller (greater). *)
Definition py_min (xs : list (value N)) : result (value N) :=
  match xs with
  | [] => Raise ValueError
  | x :: xs' =>
      for_inM xs' (fun item best =>
        lt <- py_lt item best ;; Ok (if lt then item else best)) x
  end.
Definition py_max (xs : list (value N)) : result (value N) :=
  match xs with
  | [] => Raise ValueError
  | x :: xs' =>
      for_inM xs' (fun item best =>
        gt <- py_lt best item ;; Ok (if gt then item else best)) x
  end.

(** [math.floor(v)] and [math.ceil(v)]. *)
Definition math_floor (v : value N) : result Z :=
  match v with
  | VNum x => n_floor ops x
  | VNone => Raise TypeError
  end.
Definition math_ceil (v : value N) : result Z :=
  match v with
  | VNum x => n_ceil ops x
  | VNone => Raise TypeError
  end.
End Values.

(** *** IEEE binary64: the numbers of CPython

    An int operand enters as the nearest double; sums and quotients of
    ints below 2^53 are then the ones CPython computes on the ints. *)
Definition float_of_Z (z : Z) : float :=
  SF2Prim (binary_normalize prec emax z 0 false).

Definition float_floor (x : float) : result Z :=
  match Prim2SF x with
  | S754_zero _ => Ok 0%Z
  | S754_finite s m e =>
      let sm := if s then Z.neg m else Z.pos m in
      Ok (if (0 <=? e)%Z then sm * 2 ^ e else sm / 2 ^ (- e))%Z
  | S754_infinity _ => Raise OverflowError
  | S754_nan => Raise ValueError
  end.

Definition float_ceil (x : float) : result Z :=
  match float_floor (PrimFloat.opp x) with
  | Ok z => Ok (- z)%Z
  | Raise e => Raise e
  end.

Definition binary64 : num_ops float := {|
  n_int := float_of_Z;
  n_add := PrimFloat.add;
  n_sub := PrimFloat.sub;
  n_mul := PrimFloat.mul;
  n_div := PrimFloat.div;
  n_is_zero := fun x => PrimFloat.eqb x PrimFloat.zero;
  n_ltb := PrimFloat.ltb;
  n_floor := float_floor;
  n_ceil := float_ceil
|}.

(** *** A stand-in for the floating-point interface of the generators

    Used only to run the generators on concrete inputs; the theorems about
    the generators hold for every implementation of the interface.
    Arithmetic and [round] are those of binary64; [cos] and [sin] are Taylor
    polynomials at 0 (24 terms), not the platform's libm. *)
Definition float_round (x : float) : Z :=
  match float_floor x with
  | Ok f =>
      let below := float_of_Z f in
      let rest := PrimFloat.sub x below in
      if PrimFloat.ltb rest 0.5%float then f
      else if PrimFloat.ltb 0.5%float rest then (f + 1)%Z
      else if Z.even f then f else (f + 1)%Z
  | Raise _ => 0%Z
  end.

Fixpoint taylor (terms : nat) (k : Z) (x2 term acc : float) : float :=
  match terms with
  | O => acc
  | S terms' =>
      let term' :=
        PrimFloat.div (PrimFloat.opp (PrimFloat.mul term x2))
          (float_of_Z ((k + 1) * (k + 2))) in
      taylor terms' (k + 2) x2 term' (PrimFloat.add acc term')
  end.

Definition taylor_cos (x : float) : float :=
  taylor 24 0 (PrimFloat.mul x x) 1%float 1%float.
Definition taylor_sin (x : float) : float :=
  taylor 24 1 (PrimFloat.mul x x) x x.

Definition sample_floats : float_ops float := {|
  f_int := float_of_Z;
  f_add := PrimFloat.add;
  f_mul := PrimFloat.mul;
  f_div := PrimFloat.div;
  f_pi := 0x1.921fb54442d18p+1%float;
  f_cos := taylor_cos;
  f_sin := taylor_sin;
  f_round := float_round
|}.

End Py.

Import Py.
Notation "x <- m ;; k" := (Py.bind m (fun x => k))
  (at level 61, m at next level, right associativity).
Notation "' p <- m ;; k" := (Py.bind m (fun p => k))
  (at level 61, p pattern, m at next level, right associativity).

(* ================================================================== *)
(** * What the three scripts have in common *)
(* ================================================================== *)

Module Common.

(** A value of an options mapping: a string, an int, a bool, or the empty
    list literal of [DEFAULT_OPTIONS]. *)
Inductive optval : Set :=
| OStr (s : string)
| OInt (z : Z)
| OBool (b : bool)
| OEmptyList.

(** [str(value)]. *)
Definition py_str (v : optval) : string :=
  match v with
  | OStr s => s
  | OInt z => str_of_Z z
  | OBool true => "True"
  | OBool false => "False"
  | OEmptyList => "[]"
  end.

(** [type(value) is str]. *)
Definition is_str (v : optval) : bool :=
  match v with
  | OStr _ => true
  | _ => false
  end.

(** The loaded [stats_merged.json]: run -> node -> metric -> number or null. *)
Definition results_tree (N : Type) : Type := dict (dict (dict (value N))).

(** The attributes of an [Experiment] object; [results] is [None] until
    [load_results] has run. *)
Record Experiment (N : Type) : Type := {
  name : string;
  results_dir : string;
  options : dict optval;
  results : option (results_tree N)
}.

(** [for run in exp.results] on an experiment whose results are still
    [None] raises [TypeError]. *)
Definition results_of {N : Type} (exp : Experiment N) : result (results_tree N) :=
  match results exp with
  | Some tree => Ok tree
  | None => Raise TypeError
  end.

(** [load_results], given the parsed content of the statistics file of each
    results directory. *)
Definition load_results {N : Type} (stats : dict (results_tree N)) (exp : Experiment N)
  : result (Experiment N) :=
  match dict_get stats (results_dir exp ++ "/stats_merged.json") with
  | Ok tree => Ok {| name := name exp; results_dir := results_dir exp;
                     options := options exp; results := Some tree |}
  | Raise _ => Raise FileNotFoundError
  end.

(** The files of the working directory: name -> content. *)
Definition files : Type := dict string.

Definition read_file (fs : files) (filename : string) : result string :=
  match dict_get fs filename with
  | Ok contents => Ok contents
  | Raise _ => Raise FileNotFoundError
  end.

Definition write_file (fs : files) (filename contents : string) : files :=
  dict_set fs filename contents.

(** One element of the list [connections] of a fixed link: the values
    interpolated into the f-string, which [render_connection] turns into
    that string.  The link qualities are float constants whose [str] is
    ["0.9"]. *)
Record connection : Type := {
  FROM_ID : nat;
  TO_ID : nat;
  RSSI : Z;
  LINK_QUALITY : string;
  LINK_MODEL : string
}.

Definition fixed (from to : nat) (rssi : Z) (quality : string) : connection :=
  {| FROM_ID := from; TO_ID := to; RSSI := rssi;
     LINK_QUALITY := quality; LINK_MODEL := "Fixed" |}.

Definition render_connection (c : connection) : string :=
  quoted "FROM_ID" ++ ": " ++ str_of_nat (FROM_ID c) ++ ", "
  ++ quoted "TO_ID" ++ ": " ++ str_of_nat (TO_ID c) ++ ", "
  ++ quoted "RSSI" ++ ": " ++ str_of_Z (RSSI c) ++ ", "
  ++ quoted "LINK_QUALITY" ++ ": " ++ LINK_QUALITY c ++ ", "
  ++ quoted "LINK_MODEL" ++ ": " ++ quoted (LINK_MODEL c).

(** One element of the list [positions]. *)
Record position : Type := { ID : nat; X : Z; Y : Z }.

Definition render_position (p : position) : string :=
  quoted "ID" ++ ": " ++ str_of_nat (ID p) ++ ", "
  ++ quoted "X" ++ ": " ++ str_of_Z (X p) ++ ", "
  ++ quoted "Y" ++ ": " ++ str_of_Z (Y p).

(** The returned text of both generators: the entries joined and bracketed. *)
Definition bracketed (entries : list string) : string :=
  "[{" ++ join ("}," ++ newline ++ "    {") entries ++ "}]" ++ newline.

Section Circle.
Context {F : Type} (fl : float_ops F).

(** [radius * math.cos(2 * math.pi * (k + 1) / n)], and the same with [sin]. *)
Definition on_circle_cos (radius : Z) (k n : nat) : F :=
  f_mul fl (f_int fl radius)
    (f_cos fl (f_div fl
       (f_mul fl (f_mul fl (f_int fl 2) (f_pi fl)) (f_int fl (Z.of_nat (k + 1))))
       (f_int fl (Z.of_nat n)))).
Definition on_circle_sin (radius : Z) (k n : nat) : F :=
  f_mul fl (f_int fl radius)
    (f_sin fl (f_div fl
       (f_mul fl (f_mul fl (f_int fl 2) (f_pi fl)) (f_int fl (Z.of_nat (k + 1))))
       (f_int fl (Z.of_nat n)))).
End Circle.

(** What [plot] hands to the plotting library: the bar heights, the two
    error-bar series of [yerr], the tick labels, the axis label, the
    arguments of [ylim], and the name of the saved file. *)
Record chart (N : Type) : Type := {
  bar_heights : list (value N);
  yerr_lower : list (value N);
  yerr_upper : list (value N);
  xticks : list string;
  ylabel : string;
  ylim : Z * Z;
  savefig : string
}.

Section PlotLoops.
Context {N : Type} (ops : num_ops N).

(** The loop of both [plot] functions that reduces each experiment's series to its mean,
    minimum and maximum. *)
Definition reduce_series (results : list (list (value N)))
  : result (list (value N) * list (value N) * list (value N)) :=
  for_inM results (fun result '(mean_values, min_values, max_values) =>
    s <- py_sum ops result ;;
    m <- py_truediv ops s (py_len ops result) ;;
    mn <- py_min ops result ;;
    mx <- py_max ops result ;;
    Ok (mean_values ++ [m], min_values ++ [mn], max_values ++ [mx])) ([], [], []).

(** [[mean - mn for mean, mn in zip(mean_values, min_values)]] and
    [[mx - mean for mean, mx in zip(mean_values, max_values)]]. *)
Definition lower_yerr (mean_values min_values : list (value N)) : result (list (value N)) :=
  for_inM (combine mean_values min_values) (fun '(mean, mn) acc =>
    d <- py_sub ops mean mn ;; Ok (acc ++ [d])) [].
Definition upper_yerr (mean_values max_values : list (value N)) : result (list (value N)) :=
  for_inM (combine mean_values max_values) (fun '(mean, mx) acc =>
    d <- py_sub ops mx mean ;; Ok (acc ++ [d])) [].

End PlotLoops.

End Common.

Import Common.

(* ================================================================== *)
(** * examples/niharika-ttp-smart-home/experiment.py *)
(* ================================================================== *)

Module SmartHome.

Definition TTP_TO_GATEWAY_LINK_QUALITY : string := "0.9".
Definition CLUSTER_TO_TTP_LINK_QUALITY : string := "0.9".
Definition CLUSTER_INTERNAL_LINK_QUALITY : string := "0.9".
Definition DEFAULT_RSSI : Z := (-80)%Z.
Definition SIM_DURATION_SEC : Z := 3600%Z.
Definition CONFIG_TEMPLATE_NAME : string := "config.json.tmpl".

(** Defined by the script, though [Experiment.__init__] does not read it. *)
Definition DEFAULT_OPTIONS : dict optval :=
  [ ("NUM_NODES", OInt 1);
    ("CONNECTIONS", OEmptyList);
    ("SIMULATION_DURATION_SEC", OInt SIM_DURATION_SEC) ].

(** The list [connections] of [generate_connections] as it stands before
    the final [join]. *)
Definition connection_entries (num_clusters num_per_cluster : nat) : list connection :=
  let rssi := DEFAULT_RSSI in
  let connections := [] in
  (* TTP *)
  let connections :=
    for_in (range num_clusters) (fun i connections =>
      let id := i + 2 in
      let connections := connections ++ [fixed 1 id rssi TTP_TO_GATEWAY_LINK_QUALITY] in
      connections ++ [fixed id 1 rssi TTP_TO_GATEWAY_LINK_QUALITY]) connections in
  (* clusters to TTP *)
  let connections :=
    for_in (range num_clusters) (fun i connections =>
      let ttp := i + 2 in
      for_in (range num_per_cluster) (fun j connections =>
        let node := 2 + num_clusters + i * num_per_cluster + j in
        let connections := connections ++ [fixed ttp node rssi CLUSTER_TO_TTP_LINK_QUALITY] in
        connections ++ [fixed node ttp rssi CLUSTER_TO_TTP_LINK_QUALITY]) connections)
      connections in
  (* cluster internal *)
  for_in (range num_clusters) (fun i connections =>
    for_in (range num_per_cluster) (fun j connections =>
      let node1 := 2 + num_clusters + i * num_per_cluster + j in
      for_in (range2 (j + 1) num_per_cluster) (fun k connections =>
        let node2 := 2 + num_clusters + i * num_per_cluster + k in
        let connections :=
          connections ++ [fixed node1 node2 rssi CLUSTER_INTERNAL_LINK_QUALITY] in
        connections ++ [fixed node2 node1 rssi CLUSTER_INTERNAL_LINK_QUALITY])
        connections) connections) connections.

Definition generate_connections (num_clusters num_per_cluster : nat) : string :=
  bracketed (map render_connection (connection_entries num_clusters num_per_cluster)).

Section Positions.
Context {F : Type} (fl : float_ops F).

(** The list [positions] of [generate_positions] as it stands before the
    final [join]. *)
Definition position_entries (num_clusters num_per_cluster : nat) : list position :=
  let positions := [] in
  (* gateway *)
  let positions := positions ++ [{| ID := 1; X := 0; Y := 0 |}] in
  (* TTP *)
  let positions :=
    for_in (range num_clusters) (fun i positions =>
      let x := on_circle_cos fl 150 i num_clusters in
      let y := on_circle_sin fl 150 i num_clusters in
      positions ++ [{| ID := i + 2; X := f_round fl x; Y := f_round fl y |}])
      positions in
  (* clusters *)
  for_in (range num_clusters) (fun i positions =>
    let cluster_x := on_circle_cos fl 250 i num_clusters in
    let cluster_y := on_circle_sin fl 250 i num_clusters in
    for_in (range num_per_cluster) (fun j positions =>
      let id := 2 + num_clusters + i * num_per_cluster + j in
      let x := on_circle_cos fl 40 j num_per_cluster in
      let y := on_circle_sin fl 40 j num_per_cluster in
      positions ++ [{| ID := id;
                       X := f_round fl (f_add fl x cluster_x);
                       Y := f_round fl (f_add fl y cluster_y) |}])
      positions) positions.

Definition generate_positions (num_clusters num_per_cluster : nat) : string :=
  bracketed (map render_position (position_entries num_clusters num_per_cluster)).

(** [Experiment.__init__]: the caller's options are copied first, the
    values derived from the topology are assigned after them. *)
Definition Experiment_init (N : Type) (num_clusters num_per_cluster : nat)
    (options : dict optval) : Experiment N :=
  let self_name :=
    (str_of_nat num_clusters ++ "_clusters_" ++ str_of_nat num_per_cluster ++ "_nodes")%string in
  let self_results_dir := ("./results-" ++ self_name)%string in
  let self_options := [] in
  let self_options := dict_set self_options "SIMULATION_DURATION_SEC" (OInt SIM_DURATION_SEC) in
  let self_options := dict_set self_options "RESULTS_DIR" (OStr self_results_dir) in
  let self_options :=
    for_in options (fun '(key, value) self_options => dict_set self_options key value)
      self_options in
  let num_nodes := 1 + num_clusters + num_clusters * num_per_cluster in
  let self_options := dict_set self_options "NUM_NODES" (OStr (str_of_nat num_nodes)) in
  let self_options :=
    dict_set self_options "CONNECTIONS"
      (OStr (generate_connections num_clusters num_per_cluster)) in
  let self_options :=
    dict_set self_options "POSITIONS"
      (OStr (generate_positions num_clusters num_per_cluster)) in
  {| name := self_name; results_dir := self_results_dir;
     options := self_options; results := None |}.

End Positions.

(** The text substituted for a placeholder. *)
Definition render_value (value : optval) : string :=
  if is_str value && negb (contains newline (py_str value))
  then quoted (py_str value)
  else
    let value := py_str value in
    if str_in value ["True"; "False"] then str_lower value else value.

(** [generate_config_file]: the file system is threaded through; a missing
    template raises before anything is written. *)
Definition generate_config_file (name : string) (options : dict optval) (fs : files)
  : result string * files :=
  match read_file fs CONFIG_TEMPLATE_NAME with
  | Raise e => (Raise e, fs)
  | Ok contents =>
      let contents :=
        for_in options (fun '(key, value) contents =>
          replace ("%" ++ key ++ "%")%string (render_value value) contents) contents in
      let filename := ("config-" ++ name ++ ".json")%string in
      (Ok filename, write_file fs filename contents)
  end.

Section Metrics.
Context {N : Type} (ops : num_ops N).

Definition aggregate : Type := list (value N) -> result (value N).

(** [mean]: [0.0] on an empty series. *)
Definition mean (series : list (value N)) : result (value N) :=
  if Nat.eqb (List.length series) 0 then Ok (VNum (n_int ops 0))
  else s <- py_sum ops series ;; py_truediv ops s (py_len ops series).

(** The function [main] passes for the packet delivery ratio:
    [lambda x, y: 100.0 * (1.0 - x / (x + y)) if x + y else 0]. *)
Definition pdr (x y : value N) : result (value N) :=
  total <- py_add ops x y ;;
  if py_bool ops total then
    total <- py_add ops x y ;;
    ratio <- py_truediv ops x total ;;
    rest <- py_sub ops (VNum (n_int ops 1)) ratio ;;
    py_mul ops (VNum (n_int ops 100)) rest
  else Ok (VNum (n_int ops 0)).

(** The function [main] passes for the link-layer acknowledgement ratio:
    [lambda x, y: 100.0 * x / y if y else 0]. *)
Definition par (x y : value N) : result (value N) :=
  if py_bool ops y then
    scaled <- py_mul ops (VNum (n_int ops 100)) x ;;
    py_truediv ops scaled y
  else Ok (VNum (n_int ops 0)).

(** [extract_metric]; the [print] of each run's list is left out. *)
Definition extract_metric (experiments : list (Experiment N))
    (arguments : string * value N) (aggregate_function : aggregate)
  : result (list (list (value N))) :=
  let '(metric_name, default_value) := arguments in
  for_inM experiments (fun exp results =>
    exp_results_tree <- results_of exp ;;
    exp_results <-
      for_inM exp_results_tree (fun '(run, run_results) exp_results =>
        if String.eqb run "aggregate-stats" then Ok exp_results (* continue *)
        else
          usable_run_results <-
            for_inM run_results (fun '(node, node_results) usable_run_results =>
              (* ignore the global summary information and gateway results *)
              if str_in node ["global-stats"; "1"] then Ok usable_run_results
              else
                value <- dict_get node_results metric_name ;;
                let value :=
                  match value with
                  | VNone => default_value
                  | _ => value
                  end in
                Ok (usable_run_results ++ [value])) [] ;;
          a <- aggregate_function usable_run_results ;;
          Ok (exp_results ++ [a])) [] ;;
    Ok (results ++ [exp_results])) [].

(** [extract_metrics]. *)
Definition extract_metrics (experiments : list (Experiment N))
    (arguments : string * string * (value N -> value N -> result (value N)))
    (aggregate_function : aggregate)
  : result (list (list (value N))) :=
  let '(metric1_name, metric2_name, function) := arguments in
  for_inM experiments (fun exp results =>
    exp_results_tree <- results_of exp ;;
    '(exp_results1, exp_results2) <-
      for_inM exp_results_tree (fun '(run, run_results) '(exp_results1, exp_results2) =>
        if String.eqb run "aggregate-stats" then Ok (exp_results1, exp_results2)
        else
          '(usable_run_results1, usable_run_results2) <-
            for_inM run_results
              (fun '(node, node_results) '(usable_run_results1, usable_run_results2) =>
                if str_in node ["global-stats"; "1"]
                then Ok (usable_run_results1, usable_run_results2)
                else
                  v1 <- dict_get node_results metric1_name ;;
                  v2 <- dict_get node_results metric2_name ;;
                  Ok (usable_run_results1 ++ [v1], usable_run_results2 ++ [v2]))
              ([], []) ;;
          a1 <- aggregate_function usable_run_results1 ;;
          a2 <- aggregate_function usable_run_results2 ;;
          Ok (exp_results1 ++ [a1], exp_results2 ++ [a2])) ([], []) ;;
    combined <-
      for_inM (combine exp_results1 exp_results2) (fun '(x, y) acc =>
        r <- function x y ;; Ok (acc ++ [r])) [] ;;
    Ok (results ++ [combined])) [].

(** [plot]: everything up to the calls into the plotting library, whose
    arguments are returned. *)
Definition plot {A : Type} (title : string) (experiments : list (Experiment N))
    (function : list (Experiment N) -> A -> aggregate -> result (list (list (value N))))
    (arguments : A) (aggregate_function : aggregate) : result (chart N) :=
  results <- function experiments arguments aggregate_function ;;
  '(mean_values, min_values, max_values) <- reduce_series ops results ;;
  lowest <- py_min ops min_values ;;
  floor_lowest <- math_floor ops lowest ;;
  let total_min_value := (floor_lowest - 1)%Z in
  highest <- py_max ops max_values ;;
  ceil_highest <- math_ceil ops highest ;;
  let total_max_value := (ceil_highest + 1)%Z in
  min_values_yerr <- lower_yerr ops mean_values min_values ;;
  max_values_yerr <- upper_yerr ops mean_values max_values ;;
  Ok {| bar_heights := mean_values;
        yerr_lower := min_values_yerr;
        yerr_upper := max_values_yerr;
        xticks := map (fun exp => name exp) experiments;
        ylabel := title;
        (* use 0 or total_min_value as the lower bound *)
        ylim := if contains "PDR" title
                then (total_min_value, total_max_value)
                else (0%Z, total_max_value);
        savefig := ("plot " ++ title ++ ".pdf")%string |}.

End Metrics.

End SmartHome.

(* ================================================================== *)
(** * examples/niharika-ttp-smart-home/generate-network-with-mobility.py *)
(* ================================================================== *)

Module Mobility.

Definition TTP_TO_GATEWAY_LINK_QUALITY : string := "0.9".
Definition DEFAULT_RSSI : Z := (-80)%Z.
Definition SIM_DURATION_SEC : Z := 3600%Z.
Definition CONFIG_TEMPLATE_NAME : string := "mobile-config.json.tmpl".

Definition DEFAULT_OPTIONS : dict optval :=
  [ ("NUM_ROUTER_NODES", OInt 1);
    ("NUM_STATIC_LEAF_NODES", OInt 1);
    ("NUM_MOBILE_LEAF_NODES", OInt 1);
    ("RANGE_X", OInt 100);
    ("RANGE_Y", OInt 100);
    ("CONNECTIONS", OEmptyList);
    ("SIMULATION_DURATION_SEC", OInt SIM_DURATION_SEC) ].

(** Returns [(num_mobile, num_static)]. *)
Definition get_num_mobile_per_cluster (num_total : nat) : nat * nat :=
  let num_static := num_total * 2 / 3 in
  let num_mobile := num_total - num_static in
  (num_mobile, num_static).

(** A type-level rule of [generate_connections], as the text appended. *)
Definition node_rule (node_type : string) : string :=
  quoted "NODE_TYPE" ++ ": " ++ quoted node_type ++ ", "
  ++ quoted "LINK_MODEL" ++ ": " ++ quoted "UDGM".
Definition type_rule (from_type to_type : string) : string :=
  quoted "FROM_NODE_TYPE" ++ ": " ++ quoted from_type ++ ", "
  ++ quoted "TO_NODE_TYPE" ++ ": " ++ quoted to_type ++ ", "
  ++ quoted "LINK_MODEL" ++ ": " ++ quoted "UDGM".

(** The list [connections] of [generate_connections] before the [join];
    [num_per_cluster] is not used. *)
Definition connection_entries (num_clusters num_per_cluster : nat) : list string :=
  let rssi := DEFAULT_RSSI in
  let connections := [] in
  (* gateway and TTP links are constant *)
  let connections :=
    for_in (range num_clusters) (fun i connections =>
      let id := i + 2 in
      let connections :=
        connections ++ [render_connection (fixed 1 id rssi TTP_TO_GATEWAY_LINK_QUALITY)] in
      connections ++ [render_connection (fixed id 1 rssi TTP_TO_GATEWAY_LINK_QUALITY)])
      connections in
  (* other links depend on the distance *)
  let connections := connections ++ [node_rule "mobile_leaf_nodes"] in
  let connections := connections ++ [node_rule "static_leaf_nodes"] in
  let connections := connections ++ [type_rule "static_leaf_nodes" "router_nodes"] in
  let connections := connections ++ [type_rule "router_nodes" "static_leaf_nodes"] in
  let connections := connections ++ [type_rule "mobile_leaf_nodes" "router_nodes"] in
  let connections := connections ++ [type_rule "router_nodes" "mobile_leaf_nodes"] in
  let connections := connections ++ [type_rule "mobile_leaf_nodes" "static_leaf_nodes"] in
  connections ++ [type_rule "static_leaf_nodes" "mobile_leaf_nodes"].

Definition generate_connections (num_clusters num_per_cluster : nat) : string :=
  bracketed (connection_entries num_clusters num_per_cluster).

Section Positions.
Context {F : Type} (fl : float_ops F).

(** The list [positions] of [generate_positions] before the [join]; the
    loops carry [next_id] along with the list. *)
Definition position_entries (num_clusters num_per_cluster : nat) : list position :=
  let positions := [] in
  let next_id := 1 in
  (* gateway *)
  let position := {| ID := next_id; X := 0; Y := 0 |} in
  let next_id := next_id + 1 in
  let positions := positions ++ [position] in
  (* TTP *)
  let '(next_id, positions) :=
    for_in (range num_clusters) (fun i '(next_id, positions) =>
      let x := on_circle_cos fl 500 i num_clusters in
      let y := on_circle_sin fl 500 i num_clusters in
      let position := {| ID := next_id; X := f_round fl x; Y := f_round fl y |} in
      let next_id := next_id + 1 in
      (next_id, positions ++ [position])) (next_id, positions) in
  (* clusters *)
  let '(nm, ns) := get_num_mobile_per_cluster num_per_cluster in
  (* static nodes *)
  let '(next_id, positions) :=
    for_in (range num_clusters) (fun i state =>
      let cluster_x := on_circle_cos fl 500 i num_clusters in
      let cluster_y := on_circle_sin fl 500 i num_clusters in
      for_in (range ns) (fun j '(next_id, positions) =>
        let x := on_circle_cos fl 40 j ns in
        let y := on_circle_sin fl 40 j ns in
        let position := {| ID := next_id;
                           X := f_round fl (f_add fl x cluster_x);
                           Y := f_round fl (f_add fl y cluster_y) |} in
        let next_id := next_id + 1 in
        (next_id, positions ++ [position])) state) (next_id, positions) in
  (* mobile nodes *)
  let '(next_id, positions) :=
    for_in (range num_clusters) (fun i state =>
      let cluster_x := on_circle_cos fl 500 i num_clusters in
      let cluster_y := on_circle_sin fl 500 i num_clusters in
      for_in (range nm) (fun j '(next_id, positions) =>
        let position := {| ID := next_id;
                           X := f_round fl cluster_x;
                           Y := f_round fl cluster_y |} in
        let next_id := next_id + 1 in
        (next_id, positions ++ [position])) state) (next_id, positions) in
  positions.

Definition generate_positions (num_clusters num_per_cluster : nat) : string :=
  bracketed (map render_position (position_entries num_clusters num_per_cluster)).

(** [Experiment.__init__]: defaults, then the caller's options, then the
    values derived from the topology. *)
Definition Experiment_init (N : Type) (num_clusters num_per_cluster : nat)
    (options : dict optval) : Experiment N :=
  let self_name :=
    (str_of_nat num_clusters ++ "_clusters_" ++ str_of_nat num_per_cluster
     ++ "_nodes_mobile")%string in
  let self_results_dir := ("./results-" ++ self_name)%string in
  let self_options := [] in
  let self_options := dict_set self_options "RESULTS_DIR" (OStr self_results_dir) in
  let self_options :=
    for_in DEFAULT_OPTIONS (fun '(key, value) self_options =>
      dict_set self_options key value) self_options in
  let self_options :=
    for_in options (fun '(key, value) self_options => dict_set self_options key value)
      self_options in
  let self_options :=
    dict_set self_options "NUM_ROUTER_NODES" (OStr (str_of_nat (1 + num_clusters))) in
  let '(nm, ns) := get_num_mobile_per_cluster num_per_cluster in
  let self_options :=
    dict_set self_options "NUM_STATIC_LEAF_NODES" (OStr (str_of_nat (num_clusters * ns))) in
  let self_options :=
    dict_set self_options "NUM_MOBILE_LEAF_NODES" (OStr (str_of_nat (num_clusters * nm))) in
  let self_options :=
    dict_set self_options "CONNECTIONS"
      (OStr (generate_connections num_clusters num_per_cluster)) in
  let self_options :=
    dict_set self_options "POSITIONS"
      (OStr (generate_positions num_clusters num_per_cluster)) in
  {| name := self_name; results_dir := self_results_dir;
     options := self_options; results := None |}.

End Positions.

End Mobility.

(* ================================================================== *)
(** * examples/result-visualization/experiment.py *)
(* ================================================================== *)

Module ResultViz.

Definition CONFIG_TEMPLATE_NAME : string := "config.json.tmpl".

(** The triple-quoted text of the default Orchestra rules. *)
Definition ORCHESTRA_RULES : string :=
  "[" ++ newline
  ++ "        " ++ quoted "orchestra_rule_eb_per_time_source" ++ "," ++ newline
  ++ "        " ++ quoted "orchestra_rule_unicast_per_neighbor_rpl_storing" ++ "," ++ newline
  ++ "        " ++ quoted "orchestra_rule_default_common" ++ newline
  ++ "    ]".

Definition DEFAULT_OPTIONS : dict optval :=
  [ ("RESULTS_DIR", OStr "results");
    ("SCHEDULING_ALGORITHM", OStr "Orchestra");
    ("TSCH_SCHEDULE_CONF_DEFAULT_LENGTH", OInt 7);
    ("ORCHESTRA_UNICAST_PERIOD", OInt 7);
    ("ORCHESTRA_RULES", OStr ORCHESTRA_RULES);
    ("ORCHESTRA_UNICAST_SENDER_BASED", OInt 0) ].

(** [Experiment.__init__(name, options)]: a copy of the defaults, then the
    caller's options, then the results directory. *)
Definition Experiment_init (N : Type) (name : string) (options : dict optval)
  : Experiment N :=
  let self_results_dir := ("./results-" ++ name)%string in
  let self_options := DEFAULT_OPTIONS in
  let self_options :=
    for_in options (fun '(key, value) self_options => dict_set self_options key value)
      self_options in
  let self_options := dict_set self_options "RESULTS_DIR" (OStr self_results_dir) in
  {| Common.name := name; results_dir := self_results_dir;
     options := self_options; results := None |}.

(** The text substituted for a placeholder (no lowering of booleans here). *)
Definition render_value (value : optval) : string :=
  if is_str value && negb (contains newline (py_str value))
  then quoted (py_str value)
  else py_str value.

Definition generate_config_file (name : string) (options : dict optval) (fs : files)
  : result string * files :=
  match read_file fs CONFIG_TEMPLATE_NAME with
  | Raise e => (Raise e, fs)
  | Ok contents =>
      let contents :=
        for_in options (fun '(key, value) contents =>
          replace ("%" ++ key ++ "%")%string (render_value value) contents) contents in
      let filename := ("config-" ++ name ++ ".json")%string in
      (Ok filename, write_file fs filename contents)
  end.

Section Metrics.
Context {N : Type} (ops : num_ops N).

(** [extract_metric]: every run is visited, and each run's total is divided
    by its number of counted nodes. *)
Definition extract_metric (experiments : list (Experiment N))
    (arguments : string * value N) : result (list (list (value N))) :=
  let '(metric_name, default_value) := arguments in
  for_inM experiments (fun exp results =>
    exp_results_tree <- results_of exp ;;
    exp_results <-
      for_inM exp_results_tree (fun '(run, run_results) exp_results =>
        let total := VNum (n_int ops 0) in
        let num_nodes := 0 in
        '(total, num_nodes) <-
          for_inM run_results (fun '(node, node_results) '(total, num_nodes) =>
            (* ignore the global summary information and gateway results *)
            if str_in node ["global-stats"; "1"] then Ok (total, num_nodes)
            else
              value <- dict_get node_results metric_name ;;
              let value :=
                match value with
                | VNone => default_value
                | _ => value
                end in
              total <- py_add ops total value ;;
              Ok (total, num_nodes + 1)) (total, num_nodes) ;;
        (* compute the average metric across all nodes *)
        avg <- py_truediv ops total (VNum (n_int ops (Z.of_nat num_nodes))) ;;
        Ok (exp_results ++ [avg])) [] ;;
    Ok (results ++ [exp_results])) [].

(** [extract_metrics]: two running totals per run, no default for nulls. *)
Definition extract_metrics (experiments : list (Experiment N))
    (arguments : string * string * (value N -> value N -> result (value N)))
  : result (list (list (value N))) :=
  let '(metric1_name, metric2_name, function) := arguments in
  for_inM experiments (fun exp results =>
    exp_results_tree <- results_of exp ;;
    '(exp_results1, exp_results2) <-
      for_inM exp_results_tree (fun '(run, run_results) '(exp_results1, exp_results2) =>
        let total1 := VNum (n_int ops 0) in
        let total2 := VNum (n_int ops 0) in
        let num_nodes := 0 in
        '(total1, total2, num_nodes) <-
          for_inM run_results (fun '(node, node_results) '(total1, total2, num_nodes) =>
            (* ignore the global summary information and the results on the root node *)
            if str_in node ["global-stats"; "1"] then Ok (total1, total2, num_nodes)
            else
              v1 <- dict_get node_results metric1_name ;;
              total1 <- py_add ops total1 v1 ;;
              v2 <- dict_get node_results metric2_name ;;
              total2 <- py_add ops total2 v2 ;;
              Ok (total1, total2, num_nodes + 1)) (total1, total2, num_nodes) ;;
        (* compute the average metric across all nodes *)
        avg1 <- py_truediv ops total1 (VNum (n_int ops (Z.of_nat num_nodes))) ;;
        avg2 <- py_truediv ops total2 (VNum (n_int ops (Z.of_nat num_nodes))) ;;
        Ok (exp_results1 ++ [avg1], exp_results2 ++ [avg2])) ([], []) ;;
    combined <-
      for_inM (combine exp_results1 exp_results2) (fun '(x, y) acc =>
        r <- function x y ;; Ok (acc ++ [r])) [] ;;
    Ok (results ++ [combined])) [].

(** The functions [main] passes, without guards:
    [lambda x, y: 100.0 * (1.0 - x / (x + y))] and [lambda x, y: 100.0 * x / y]. *)
Definition pdr (x y : value N) : result (value N) :=
  total <- py_add ops x y ;;
  ratio <- py_truediv ops x total ;;
  rest <- py_sub ops (VNum (n_int ops 1)) ratio ;;
  py_mul ops (VNum (n_int ops 100)) rest.

Definition par (x y : value N) : result (value N) :=
  scaled <- py_mul ops (VNum (n_int ops 100)) x ;;
  py_truediv ops scaled y.

(** [plot]: everything up to the calls into the plotting library. *)
Definition plot {A : Type} (experiments : list (Experiment N))
    (function : list (Experiment N) -> A -> result (list (list (value N))))
    (arguments : A) (title : string) : result (chart N) :=
  results <- function experiments arguments ;;
  '(mean_values, min_values, max_values) <- reduce_series ops results ;;
  lowest <- py_min ops min_values ;;
  floor_lowest <- math_floor ops lowest ;;
  let total_min_value := (floor_lowest - 1)%Z in
  highest <- py_max ops max_values ;;
  ceil_highest <- math_ceil ops highest ;;
  let total_max_value := (ceil_highest + 1)%Z in
  min_values_yerr <- lower_yerr ops mean_values min_values ;;
  max_values_yerr <- upper_yerr ops mean_values max_values ;;
  Ok {| bar_heights := mean_values;
        yerr_lower := min_values_yerr;
        yerr_upper := max_values_yerr;
        xticks := map (fun exp => name exp) experiments;
        ylabel := title;
        (* use 0 or total_min_value as the lower bound *)
        ylim := if contains "PDR" title
                then (total_min_value, total_max_value)
                else (0%Z, total_max_value);
        savefig := ("plot " ++ title ++ ".pdf")%string |}.

End Metrics.

End ResultViz.

(* ================================================================== *)
(** * Vocabulary of the specification, used to state the theorems *)
(* ================================================================== *)

Module Spec.

(** Node numbering of the static variant. *)
Definition gateway : nat := 1.
Definition relay (i : nat) : nat := i + 2.
Definition member (clusterCount perClusterCount i j : nat) : nat :=
  2 + clusterCount + i * perClusterCount + j.

(** The two ends of a link. *)
Definition endpoints (c : connection) : nat * nat := (FROM_ID c, TO_ID c).

Definition link_eq_dec (x y : nat * nat) : {x = y} + {x <> y}.
Proof. decide equality; apply Nat.eq_dec. Defined.

(** How often the directed link [from -> to] is emitted. *)
Definition emitted (links : list (nat * nat)) (from to : nat) : nat :=
  count_occ link_eq_dec links (from, to).

(** The links the static variant is meant to have: gateway and relay,
    a relay and a member of its cluster, two distinct members of one cluster. *)
Inductive intended (nc pc : nat) : nat -> nat -> Prop :=
| gateway_to_relay i : i < nc -> intended nc pc gateway (relay i)
| relay_to_gateway i : i < nc -> intended nc pc (relay i) gateway
| relay_to_member i j : i < nc -> j < pc -> intended nc pc (relay i) (member nc pc i j)
| member_to_relay i j : i < nc -> j < pc -> intended nc pc (member nc pc i j) (relay i)
| member_to_member i j k :
    i < nc -> j < pc -> k < pc -> j <> k ->
    intended nc pc (member nc pc i j) (member nc pc i k).

(** The three loops of [generate_connections], as the links they append. *)
Definition gateway_links (nc : nat) : list (nat * nat) :=
  flat_map (fun i => [(gateway, relay i); (relay i, gateway)]) (seq 0 nc).
Definition relay_links (nc pc : nat) : list (nat * nat) :=
  flat_map (fun i =>
    flat_map (fun j => [(relay i, member nc pc i j); (member nc pc i j, relay i)])
      (seq 0 pc)) (seq 0 nc).
Definition internal_links (nc pc : nat) : list (nat * nat) :=
  flat_map (fun i =>
    flat_map (fun j =>
      flat_map (fun k =>
        [(member nc pc i j, member nc pc i k); (member nc pc i k, member nc pc i j)])
        (seq (j + 1) (pc - (j + 1)))) (seq 0 pc)) (seq 0 nc).

Section Entries.
Context {F : Type} (fl : float_ops F).

(** Static variant: the position of the gateway, of relay [i] and of
    member [j] of cluster [i]. *)
Definition gateway_entry : position := {| ID := 1; X := 0; Y := 0 |}.
Definition relay_entry (nc i : nat) : position :=
  {| ID := relay i;
     X := f_round fl (on_circle_cos fl 150 i nc);
     Y := f_round fl (on_circle_sin fl 150 i nc) |}.
Definition member_entry (nc pc i j : nat) : position :=
  {| ID := member nc pc i j;
     X := f_round fl (f_add fl (on_circle_cos fl 40 j pc) (on_circle_cos fl 250 i nc));
     Y := f_round fl (f_add fl (on_circle_sin fl 40 j pc) (on_circle_sin fl 250 i nc)) |}.

(** Mobile variant: relay [i], static member [j] of cluster [i] and mobile
    member [j] of cluster [i], each with the id it is given. *)
Definition mobile_relay_entry (nc i id : nat) : position :=
  {| ID := id;
     X := f_round fl (on_circle_cos fl 500 i nc);
     Y := f_round fl (on_circle_sin fl 500 i nc) |}.
Definition mobile_static_entry (nc ns i j id : nat) : position :=
  {| ID := id;
     X := f_round fl (f_add fl (on_circle_cos fl 40 j ns) (on_circle_cos fl 500 i nc));
     Y := f_round fl (f_add fl (on_circle_sin fl 40 j ns) (on_circle_sin fl 500 i nc)) |}.
Definition mobile_mobile_entry (nc i id : nat) : position :=
  {| ID := id;
     X := f_round fl (on_circle_cos fl 500 i nc);
     Y := f_round fl (on_circle_sin fl 500 i nc) |}.

End Entries.

(** ** Metric aggregation, following the words of the specification *)

(** Applies [f] to each element in turn and collects the results; the
    first failure is the failure of the whole. *)
Fixpoint each {A B : Type} (f : A -> result B) (xs : list A) : result (list B) :=
  match xs with
  | [] => Ok []
  | x :: xs' => y <- f x ;; ys <- each f xs' ;; Ok (y :: ys)
  end.

Section Aggregation.
Context {N : Type}.

Definition reserved_run (run : string) : bool := String.eqb run "aggregate-stats".
Definition reserved_node (node : string) : bool :=
  String.eqb node "global-stats" || String.eqb node "1".

(** The runs of a tree without the reserved aggregate run, each with its
    nodes without the gateway and global-summary rows. *)
Definition usable (tree : results_tree N) : results_tree N :=
  map (fun '(run, nodes) => (run, filter (fun '(node, _) => negb (reserved_node node)) nodes))
    (filter (fun '(run, _) => negb (reserved_run run)) tree).

(** [metric[node]], with the default for a null. *)
Definition read_metric (metricName : string) (defaultValue : value N)
    (node_results : dict (value N)) : result (value N) :=
  v <- dict_get node_results metricName ;;
  Ok match v with
     | VNone => defaultValue
     | VNum _ => v
     end.

Definition extractMetric (experiments : list (Experiment N)) (metricName : string)
    (defaultValue : value N) (aggregateFn : list (value N) -> result (value N))
  : result (list (list (value N))) :=
  each (fun exp =>
    tree <- results_of exp ;;
    each (fun '(_, nodes) =>
      values <- each (fun '(_, node_results) =>
                        read_metric metricName defaultValue node_results) nodes ;;
      aggregateFn values) (usable tree)) experiments.

(** Paired extraction: two parallel node-level sequences per run, each
    reduced on its own, then combined per run. *)
Definition extractMetrics (experiments : list (Experiment N)) (metric1 metric2 : string)
    (combineFn : value N -> value N -> result (value N))
    (aggregateFn : list (value N) -> result (value N))
  : result (list (list (value N))) :=
  each (fun exp =>
    tree <- results_of exp ;;
    aggregates <-
      each (fun '(_, nodes) =>
        pairs <- each (fun '(_, node_results) =>
                         v1 <- dict_get node_results metric1 ;;
                         v2 <- dict_get node_results metric2 ;;
                         Ok (v1, v2)) nodes ;;
        aggregate1 <- aggregateFn (map fst pairs) ;;
        aggregate2 <- aggregateFn (map snd pairs) ;;
        Ok (aggregate1, aggregate2)) (usable tree) ;;
    each (fun '(aggregate1, aggregate2) => combineFn aggregate1 aggregate2) aggregates)
    experiments.

End Aggregation.

(** The arithmetic mean of a series, as [plot] computes it:
    [sum(result) / len(result)]. *)
Definition series_mean {N : Type} (ops : num_ops N) (series : list (value N))
  : result (value N) :=
  s <- py_sum ops series ;; py_truediv ops s (py_len ops series).

(** The keys whose values each constructor derives from the topology. *)
Definition static_derived : list string := ["NUM_NODES"; "CONNECTIONS"; "POSITIONS"].
Definition mobile_derived : list string :=
  ["NUM_ROUTER_NODES"; "NUM_STATIC_LEAF_NODES"; "NUM_MOBILE_LEAF_NODES";
   "CONNECTIONS"; "POSITIONS"].

(** The number read for a node: its metric, or a numeric default for a null. *)
Definition read_number {N : Type} (metricName : string) (defaultNumber : N)
    (entry : string * dict (value N)) : result N :=
  v <- dict_get (snd entry) metricName ;;
  Ok match v with
     | VNum x => x
     | VNone => defaultNumber
     end.

Definition counted_node {N : Type} (entry : string * dict (value N)) : bool :=
  negb (reserved_node (fst entry)).

(** Decimal digits, of which the text of a number consists. *)
Definition is_digit (c : ascii) : bool :=
  let n := nat_of_ascii c in Nat.leb 48 n && Nat.leb n 57.

Fixpoint digits_only (s : string) : bool :=
  match s with
  | EmptyString => true
  | String c s' => is_digit c && digits_only s'
  end.

(** The y-axis bounds the specification asks for: the floor of the least
    per-experiment minimum less one, or 0 when the title is not of the
    ["PDR"] class, and the ceiling of the greatest per-experiment maximum
    plus one. *)
Definition expected_ylim {N : Type} (ops : num_ops N) (title : string)
    (results : list (list (value N))) : result (Z * Z) :=
  mins <- each (py_min ops) results ;;
  globalMin <- py_min ops mins ;;
  floorMin <- math_floor ops globalMin ;;
  maxs <- each (py_max ops) results ;;
  globalMax <- py_max ops maxs ;;
  ceilMax <- math_ceil ops globalMax ;;
  Ok (if contains "PDR" title then (floorMin - 1)%Z else 0%Z, (ceilMax + 1)%Z).

End Spec.

Import Spec.

(* ================================================================== *)
(** * Lemmas on loops and lists *)
(* ================================================================== *)

(** A loop whose body only appends to its accumulator builds the
    concatenation of what each iteration appends. *)
Lemma for_in_appends {A B : Type} (f : A -> list B) (body : A -> list B -> list B) :
  (forall x acc, body x acc = acc ++ f x) ->
  forall xs acc, for_in xs body acc = acc ++ flat_map f xs.
Proof.
  intros Hbody xs. unfold for_in.
  induction xs as [|x xs IH]; intros acc; simpl.
  - now rewrite app_nil_r.
  - rewrite IH, Hbody. now rewrite <- app_assoc.
Qed.

(** The same for a single appended element. *)
Lemma for_in_append1 {A B : Type} (f : A -> B) (body : A -> list B -> list B) :
  (forall x acc, body x acc = acc ++ [f x]) ->
  forall xs acc, for_in xs body acc = acc ++ map f xs.
Proof.
  intros Hbody xs acc.
  rewrite (for_in_appends (fun x => [f x])) by assumption.
  f_equal.
Qed.

(** A loop that carries a counter and appends one entry made from it. *)
Lemma for_in_counting {B : Type} (mk : nat -> nat -> B)
    (body : nat -> nat * list B -> nat * list B) :
  (forall j n ps, body j (n, ps) = (n + 1, ps ++ [mk j n])) ->
  forall m n ps,
    for_in (range m) body (n, ps)
    = (n + m, ps ++ map (fun j => mk j (n + j)) (seq 0 m)).
Proof.
  intros Hbody m. unfold for_in, range.
  induction m as [|m IH]; intros n ps.
  - simpl. now rewrite Nat.add_0_r, app_nil_r.
  - rewrite seq_S, fold_left_app, IH. simpl.
    rewrite Hbody, map_app. simpl.
    rewrite <- app_assoc. f_equal. lia.
Qed.

(** Two nested counting loops. *)
Lemma for_in_counting2 {B : Type} (mk : nat -> nat -> nat -> B)
    (body : nat -> nat * list B -> nat * list B) (m : nat) :
  (forall i n ps,
      body i (n, ps) = (n + m, ps ++ map (fun j => mk i j (n + j)) (seq 0 m))) ->
  forall c n ps,
    for_in (range c) body (n, ps)
    = (n + c * m,
       ps ++ flat_map (fun i => map (fun j => mk i j (n + i * m + j)) (seq 0 m)) (seq 0 c)).
Proof.
  intros Hbody c. unfold for_in, range.
  induction c as [|c IH]; intros n ps.
  - simpl. now rewrite Nat.add_0_r, app_nil_r.
  - rewrite seq_S, fold_left_app, IH. simpl.
    rewrite Hbody, flat_map_app. simpl.
    rewrite app_nil_r, <- app_assoc. f_equal. lia.
Qed.

Lemma length_rows {A : Type} (f : nat -> nat -> A) (m c : nat) :
  List.length (flat_map (fun i => map (f i) (seq 0 m)) (seq 0 c)) = c * m.
Proof.
  induction c as [|c IH]; [reflexivity|].
  rewrite seq_S, flat_map_app, length_app, IH. simpl.
  rewrite app_nil_r, length_map, length_seq. lia.
Qed.

(** Row [i], column [j] of a concatenation of rows of equal length. *)
Lemma nth_error_rows {A : Type} (f : nat -> nat -> A) (m c i j : nat) :
  i < c -> j < m ->
  nth_error (flat_map (fun i => map (f i) (seq 0 m)) (seq 0 c)) (i * m + j)
  = Some (f i j).
Proof.
  revert i. induction c as [|c IH]; intros i Hi Hj; [lia|].
  rewrite seq_S, flat_map_app. simpl. rewrite app_nil_r.
  destruct (Nat.eq_dec i c) as [->|Hne].
  - rewrite nth_error_app2; rewrite length_rows; [|lia].
    replace (c * m + j - c * m) with j by lia.
    rewrite nth_error_map, nth_error_seq.
    destruct (Nat.ltb_spec j m); [reflexivity|lia].
  - rewrite nth_error_app1; [apply IH; lia|].
    rewrite length_rows. nia.
Qed.

Lemma map_offset_seq (b m : nat) : map (fun j => b + j) (seq 0 m) = seq b m.
Proof.
  induction m as [|m IH]; [reflexivity|].
  rewrite !seq_S, map_app, IH. reflexivity.
Qed.

(** The ids of a block of rows numbered row by row are consecutive. *)
Lemma rows_consecutive (base m c : nat) :
  flat_map (fun i => map (fun j => base + i * m + j) (seq 0 m)) (seq 0 c)
  = seq base (c * m).
Proof.
  induction c as [|c IH]; [reflexivity|].
  rewrite seq_S, flat_map_app, IH. simpl. rewrite app_nil_r.
  replace (m + c * m) with (c * m + m) by lia.
  rewrite seq_app. f_equal.
  apply map_offset_seq.
Qed.

(* ================================================================== *)
(** * Static topology: node numbering of [generate_positions] *)
(* ================================================================== *)

Section StaticPositions.
Context {F : Type} (fl : float_ops F).

Lemma static_position_entries_unfolded (nc pc : nat) :
  SmartHome.position_entries fl nc pc
  = [gateway_entry] ++ map (relay_entry fl nc) (seq 0 nc)
    ++ flat_map (fun i => map (member_entry fl nc pc i) (seq 0 pc)) (seq 0 nc).
Proof.
  unfold SmartHome.position_entries, range.
  rewrite (for_in_appends (fun i => map (member_entry fl nc pc i) (seq 0 pc))).
  - rewrite (for_in_append1 (relay_entry fl nc)) by (intros; reflexivity).
    reflexivity.
  - intros i acc.
    now rewrite (for_in_append1 (member_entry fl nc pc i)) by (intros; reflexivity).
Qed.

(** C1. For all cluster counts and per-cluster counts (none excluded), the
    list of positions built by the static [generate_positions] has
    [1 + clusterCount + clusterCount * perClusterCount] entries; their ids
    are [1, 2, 3, ...] in this order, so they start at 1, are contiguous and
    strictly increase; the first entry is the gateway with id 1, entry
    [1 + i] is relay [i] with id [i + 2], and entry
    [1 + clusterCount + i * perClusterCount + j] is member [j] of cluster
    [i] with id [2 + clusterCount + i * perClusterCount + j]. *)
Theorem static_positions_numbering (nc pc : nat) :
  let entries := SmartHome.position_entries fl nc pc in
  List.length entries = 1 + nc + nc * pc
  /\ map ID entries = seq 1 (1 + nc + nc * pc)
  /\ nth_error entries 0 = Some gateway_entry
  /\ (forall i, i < nc ->
        nth_error entries (1 + i) = Some (relay_entry fl nc i)
        /\ ID (relay_entry fl nc i) = i + 2)
  /\ (forall i j, i < nc -> j < pc ->
        nth_error entries (1 + nc + i * pc + j) = Some (member_entry fl nc pc i j)
        /\ ID (member_entry fl nc pc i j) = 2 + nc + i * pc + j).
Proof.
  intros entries.
  assert (Hids : map ID entries = seq 1 (1 + nc + nc * pc)).
  { subst entries. rewrite static_position_entries_unfolded.
    rewrite !map_app, map_map, flat_map_concat_map, concat_map, map_map.
    rewrite <- flat_map_concat_map. simpl.
    rewrite (map_ext _ (fun j => 2 + j)) by (intros; unfold relay; lia).
    rewrite map_offset_seq.
    rewrite (flat_map_ext _ (fun i => map (fun j => 2 + nc + i * pc + j) (seq 0 pc)))
      by (intros; now rewrite map_map).
    rewrite rows_consecutive.
    change (seq 1 (S (nc + nc * pc))) with (1 :: seq 2 (nc + nc * pc)).
    f_equal. rewrite seq_app. reflexivity. }
  split; [|split; [exact Hids|]].
  - rewrite <- (length_map ID), Hids, length_seq. reflexivity.
  - subst entries. rewrite static_position_entries_unfolded.
    split; [reflexivity|]. split.
    + intros i Hi. split; [|reflexivity]. simpl.
      rewrite nth_error_app1 by (rewrite length_map, length_seq; lia).
      rewrite nth_error_map, nth_error_seq.
      destruct (Nat.ltb_spec i nc); [reflexivity|lia].
    + intros i j Hi Hj. split; [|reflexivity]. simpl.
      rewrite nth_error_app2 by (rewrite length_map, length_seq; lia).
      rewrite length_map, length_seq.
      replace (nc + i * pc + j - nc) with (i * pc + j) by lia.
      now apply nth_error_rows.
Qed.

End StaticPositions.

(* ================================================================== *)
(** * Mobile topology: node numbering of [generate_positions] *)
(* ================================================================== *)

Section MobilePositions.
Context {F : Type} (fl : float_ops F).

Lemma mobile_position_entries_unfolded (nc pc : nat) :
  let ns := pc * 2 / 3 in
  let nm := pc - ns in
  Mobility.position_entries fl nc pc
  = [gateway_entry]
    ++ map (fun i => mobile_relay_entry fl nc i (2 + i)) (seq 0 nc)
    ++ flat_map (fun i =>
         map (fun j => mobile_static_entry fl nc ns i j (2 + nc + i * ns + j)) (seq 0 ns))
         (seq 0 nc)
    ++ flat_map (fun i =>
         map (fun j => mobile_mobile_entry fl nc i (2 + nc + nc * ns + i * nm + j))
           (seq 0 nm)) (seq 0 nc).
Proof.
  intros ns nm. unfold Mobility.position_entries.
  rewrite (for_in_counting (fun i id => mobile_relay_entry fl nc i id))
    by (intros; reflexivity).
  cbv beta iota zeta. unfold Mobility.get_num_mobile_per_cluster.
  cbv beta iota zeta. fold ns. fold nm.
  rewrite (for_in_counting2 (fun i j id => mobile_static_entry fl nc ns i j id))
    with (m := ns).
  2:{ intros i n ps.
      now rewrite (for_in_counting (fun j id => mobile_static_entry fl nc ns i j id))
        by (intros; reflexivity). }
  cbv beta iota zeta.
  rewrite (for_in_counting2 (fun i j id => mobile_mobile_entry fl nc i id))
    with (m := nm).
  2:{ intros i n ps.
      now rewrite (for_in_counting (fun j id => mobile_mobile_entry fl nc i id))
        by (intros; reflexivity). }
  cbv beta iota zeta. rewrite <- !app_assoc. reflexivity.
Qed.

(** C9. In the mobile variant, for all cluster counts and per-cluster
    counts, each cluster has [floor(perClusterCount * 2 / 3)] static members
    and the remaining members are mobile; the ids of the position list are
    [1, 2, 3, ...] in the order gateway, relays, static members cluster by
    cluster, mobile members cluster by cluster; and the entry of every
    mobile member carries the rounded coordinates of the entry of its
    cluster's relay. *)
Theorem mobile_positions_numbering (nc pc : nat) :
  let ns := pc * 2 / 3 in
  let nm := pc - ns in
  let entries := Mobility.position_entries fl nc pc in
  Mobility.get_num_mobile_per_cluster pc = (nm, ns)
  /\ ns + nm = pc
  /\ map ID entries = seq 1 (1 + nc + nc * ns + nc * nm)
  /\ nth_error entries 0 = Some gateway_entry
  /\ (forall i, i < nc ->
        nth_error entries (1 + i) = Some (mobile_relay_entry fl nc i (2 + i)))
  /\ (forall i j, i < nc -> j < ns ->
        nth_error entries (1 + nc + i * ns + j)
        = Some (mobile_static_entry fl nc ns i j (2 + nc + i * ns + j)))
  /\ (forall i j, i < nc -> j < nm ->
        exists p r,
          nth_error entries (1 + nc + nc * ns + i * nm + j) = Some p
          /\ nth_error entries (1 + i) = Some r
          /\ ID p = 2 + nc + nc * ns + i * nm + j
          /\ ID r = 2 + i
          /\ X p = X r /\ Y p = Y r).
Proof.
  intros ns nm entries.
  assert (Hns : ns <= pc).
  { subst ns. apply Nat.Div0.div_le_upper_bound. lia. }
  assert (Hsplit : Mobility.get_num_mobile_per_cluster pc = (nm, ns)) by reflexivity.
  assert (Hsum : ns + nm = pc) by (subst nm; lia).
  assert (Hc : entries
    = [gateway_entry]
      ++ map (fun i => mobile_relay_entry fl nc i (2 + i)) (seq 0 nc)
      ++ flat_map (fun i =>
           map (fun j => mobile_static_entry fl nc ns i j (2 + nc + i * ns + j)) (seq 0 ns))
           (seq 0 nc)
      ++ flat_map (fun i =>
           map (fun j => mobile_mobile_entry fl nc i (2 + nc + nc * ns + i * nm + j))
             (seq 0 nm)) (seq 0 nc))
    by apply mobile_position_entries_unfolded.
  clearbody entries nm ns. subst entries.
  assert (Hrelay : forall i, i < nc ->
            nth_error
              ([gateway_entry]
               ++ map (fun i => mobile_relay_entry fl nc i (2 + i)) (seq 0 nc)
               ++ flat_map (fun i =>
                    map (fun j => mobile_static_entry fl nc ns i j (2 + nc + i * ns + j))
                      (seq 0 ns)) (seq 0 nc)
               ++ flat_map (fun i =>
                    map (fun j => mobile_mobile_entry fl nc i (2 + nc + nc * ns + i * nm + j))
                      (seq 0 nm)) (seq 0 nc)) (1 + i)
            = Some (mobile_relay_entry fl nc i (2 + i))).
  { intros i Hi. simpl.
    rewrite nth_error_app1 by (rewrite length_map, length_seq; lia).
    rewrite nth_error_map, nth_error_seq.
    destruct (Nat.ltb_spec i nc); [reflexivity|lia]. }
  split; [exact Hsplit|]. split; [exact Hsum|].
  split; [|split; [reflexivity|split; [exact Hrelay|split]]].
  - rewrite !map_app, map_map.
    rewrite !flat_map_concat_map, !concat_map, !map_map, <- !flat_map_concat_map.
    rewrite (map_ext _ (fun j => 2 + j)) by (intros; reflexivity).
    rewrite map_offset_seq.
    rewrite (flat_map_ext _ (fun i => map (fun j => 2 + nc + i * ns + j) (seq 0 ns)))
      by (intros; now rewrite map_map).
    rewrite (flat_map_ext
               (fun i => map ID (map _ (seq 0 nm)))
               (fun i => map (fun j => 2 + nc + nc * ns + i * nm + j) (seq 0 nm)))
      by (intros; now rewrite map_map).
    rewrite !rows_consecutive.
    change (seq 1 (1 + nc + nc * ns + nc * nm))
      with (1 :: seq 2 (nc + nc * ns + nc * nm)).
    change (map ID [gateway_entry]) with [1]. simpl app.
    f_equal. rewrite !seq_app. rewrite <- app_assoc. reflexivity.
  - intros i j Hi Hj. simpl.
    rewrite nth_error_app2 by (rewrite length_map, length_seq; lia).
    rewrite length_map, length_seq.
    replace (nc + i * ns + j - nc) with (i * ns + j) by lia.
    rewrite nth_error_app1 by (rewrite length_rows; nia).
    now apply (nth_error_rows
                 (fun i j => mobile_static_entry fl nc ns i j (S (S (nc + i * ns + j))))).
  - intros i j Hi Hj.
    exists (mobile_mobile_entry fl nc i (2 + nc + nc * ns + i * nm + j)),
           (mobile_relay_entry fl nc i (2 + i)).
    split; [|split; [now apply Hrelay|repeat split]].
    simpl.
    rewrite nth_error_app2 by (rewrite length_map, length_seq; lia).
    rewrite length_map, length_seq.
    rewrite nth_error_app2 by (rewrite length_rows; lia).
    rewrite length_rows.
    replace (nc + nc * ns + i * nm + j - nc - nc * ns) with (i * nm + j) by lia.
    now apply (nth_error_rows
                 (fun i j => mobile_mobile_entry fl nc i (S (S (nc + nc * ns + i * nm + j))))).
Qed.

End MobilePositions.

(* ================================================================== *)
(** * Static topology: the links of [generate_connections] *)
(* ================================================================== *)

Lemma map_flat_map {A B C : Type} (g : B -> C) (f : A -> list B) (l : list A) :
  map g (flat_map f l) = flat_map (fun x => map g (f x)) l.
Proof.
  induction l as [|x l IH]; [reflexivity|].
  simpl. now rewrite map_app, IH.
Qed.

Lemma count_occ_flat_map_zero {A B : Type} (dec : forall x y : B, {x = y} + {x <> y})
    (f : A -> list B) (l : list A) (x : B) :
  (forall i, In i l -> count_occ dec (f i) x = 0) ->
  count_occ dec (flat_map f l) x = 0.
Proof.
  induction l as [|a l IH]; intros H; [reflexivity|].
  simpl. rewrite count_occ_app, H by now left.
  apply IH. intros i Hi. apply H. now right.
Qed.

Lemma count_occ_flat_map_single {A B : Type} (dec : forall x y : B, {x = y} + {x <> y})
    (f : A -> list B) (l : list A) (x : B) (i0 : A) :
  NoDup l -> In i0 l ->
  (forall i, In i l -> i <> i0 -> count_occ dec (f i) x = 0) ->
  count_occ dec (flat_map f l) x = count_occ dec (f i0) x.
Proof.
  induction l as [|a l IH]; intros Hnd Hin H; [contradiction|].
  inversion Hnd as [|? ? Hnotin Hnd']; subst.
  simpl. rewrite count_occ_app.
  destruct Hin as [->|Hin].
  - rewrite count_occ_flat_map_zero; [lia|].
    intros i Hi. apply H; [now right|]. intros ->. contradiction.
  - rewrite H, IH; auto.
    + intros i Hi. apply H. now right.
    + now left.
    + intros ->. contradiction.
Qed.

(** Distinct (cluster, index) pairs have distinct member ids. *)
Lemma member_inj (nc pc i j i' j' : nat) :
  j < pc -> j' < pc -> member nc pc i j = member nc pc i' j' -> i = i' /\ j = j'.
Proof.
  unfold member. intros Hj Hj' E.
  assert (i = i') by nia. subst. split; [reflexivity|lia].
Qed.

Lemma static_links_unfolded (nc pc : nat) :
  map endpoints (SmartHome.connection_entries nc pc)
  = gateway_links nc ++ relay_links nc pc ++ internal_links nc pc.
Proof.
  unfold SmartHome.connection_entries, range, range2.
  rewrite (for_in_appends (fun i =>
    flat_map (fun j =>
      flat_map (fun k =>
        [fixed (member nc pc i j) (member nc pc i k)
           SmartHome.DEFAULT_RSSI SmartHome.CLUSTER_INTERNAL_LINK_QUALITY;
         fixed (member nc pc i k) (member nc pc i j)
           SmartHome.DEFAULT_RSSI SmartHome.CLUSTER_INTERNAL_LINK_QUALITY])
        (seq (j + 1) (pc - (j + 1)))) (seq 0 pc))).
  2:{ intros i acc. apply for_in_appends. intros j acc'.
      apply for_in_appends. intros k acc''. now rewrite <- app_assoc. }
  rewrite (for_in_appends (fun i =>
    flat_map (fun j =>
      [fixed (relay i) (member nc pc i j)
         SmartHome.DEFAULT_RSSI SmartHome.CLUSTER_TO_TTP_LINK_QUALITY;
       fixed (member nc pc i j) (relay i)
         SmartHome.DEFAULT_RSSI SmartHome.CLUSTER_TO_TTP_LINK_QUALITY]) (seq 0 pc))).
  2:{ intros i acc. apply for_in_appends. intros j acc'. now rewrite <- app_assoc. }
  rewrite (for_in_appends (fun i =>
    [fixed gateway (relay i) SmartHome.DEFAULT_RSSI SmartHome.TTP_TO_GATEWAY_LINK_QUALITY;
     fixed (relay i) gateway SmartHome.DEFAULT_RSSI SmartHome.TTP_TO_GATEWAY_LINK_QUALITY])).
  2:{ intros i acc. now rewrite <- app_assoc. }
  rewrite app_nil_l, !map_app, !map_flat_map.
  unfold gateway_links, relay_links, internal_links.
  rewrite app_assoc. f_equal; [f_equal|].
  - apply flat_map_ext. intros i. now rewrite map_flat_map.
  - apply flat_map_ext. intros i. rewrite map_flat_map.
    apply flat_map_ext. intros j. now rewrite map_flat_map.
Qed.

Lemma count2_zero (p q x : nat * nat) :
  p <> x -> q <> x -> count_occ link_eq_dec [p; q] x = 0.
Proof.
  intros Hp Hq. simpl.
  destruct (link_eq_dec p x); [contradiction|].
  destruct (link_eq_dec q x); [contradiction|reflexivity].
Qed.

Lemma count2_first (p q : nat * nat) :
  q <> p -> count_occ link_eq_dec [p; q] p = 1.
Proof.
  intros Hq. simpl.
  destruct (link_eq_dec p p); [|contradiction].
  destruct (link_eq_dec q p); [contradiction|reflexivity].
Qed.

Lemma count2_second (p q : nat * nat) :
  p <> q -> count_occ link_eq_dec [p; q] q = 1.
Proof.
  intros Hp. simpl.
  destruct (link_eq_dec p q); [contradiction|].
  destruct (link_eq_dec q q); [reflexivity|contradiction].
Qed.

(** Closes a goal [(a, b) <> (c, d)] about node ids by arithmetic, using
    that member ids determine cluster and index. *)
Ltac distinct_links :=
  let E := fresh "E" in
  intros E; apply pair_equal_spec in E; destruct E;
  repeat match goal with
    | H : member _ _ _ _ = member _ _ _ _ |- _ =>
        apply member_inj in H; [destruct H|lia|lia]
    end;
  unfold member, relay, gateway in *; lia.

Lemma gateway_links_none (nc a b : nat) :
  2 + nc <= a \/ 2 + nc <= b -> emitted (gateway_links nc) a b = 0.
Proof.
  intros H. apply count_occ_flat_map_zero. intros i Hi%in_seq.
  apply count2_zero; distinct_links.
Qed.

Lemma gateway_links_once (nc i : nat) :
  i < nc ->
  emitted (gateway_links nc) gateway (relay i) = 1
  /\ emitted (gateway_links nc) (relay i) gateway = 1.
Proof.
  intros Hi. unfold emitted, gateway_links.
  split.
  - rewrite count_occ_flat_map_single with (i0 := i);
      [apply count2_first; distinct_links | apply seq_NoDup | apply in_seq; lia |].
    intros i' Hi'%in_seq Hne. apply count2_zero; distinct_links.
  - rewrite count_occ_flat_map_single with (i0 := i);
      [apply count2_second; distinct_links | apply seq_NoDup | apply in_seq; lia |].
    intros i' Hi'%in_seq Hne. apply count2_zero; distinct_links.
Qed.

Lemma relay_links_none (nc pc a b : nat) :
  a = gateway \/ b = gateway \/ (2 + nc <= a /\ 2 + nc <= b) ->
  emitted (relay_links nc pc) a b = 0.
Proof.
  intros H. apply count_occ_flat_map_zero. intros i Hi%in_seq.
  apply count_occ_flat_map_zero. intros j Hj%in_seq.
  apply count2_zero; distinct_links.
Qed.

Lemma relay_links_once (nc pc i j : nat) :
  i < nc -> j < pc ->
  emitted (relay_links nc pc) (relay i) (member nc pc i j) = 1
  /\ emitted (relay_links nc pc) (member nc pc i j) (relay i) = 1.
Proof.
  intros Hi Hj. unfold emitted, relay_links.
  split.
  - rewrite count_occ_flat_map_single with (i0 := i);
      [| apply seq_NoDup | apply in_seq; lia |].
    + rewrite count_occ_flat_map_single with (i0 := j);
        [apply count2_first; distinct_links | apply seq_NoDup | apply in_seq; lia |].
      intros j' Hj'%in_seq Hne. apply count2_zero; distinct_links.
    + intros i' Hi'%in_seq Hne. apply count_occ_flat_map_zero. intros j' Hj'%in_seq.
      apply count2_zero; distinct_links.
  - rewrite count_occ_flat_map_single with (i0 := i);
      [| apply seq_NoDup | apply in_seq; lia |].
    + rewrite count_occ_flat_map_single with (i0 := j);
        [apply count2_second; distinct_links | apply seq_NoDup | apply in_seq; lia |].
      intros j' Hj'%in_seq Hne. apply count2_zero; distinct_links.
    + intros i' Hi'%in_seq Hne. apply count_occ_flat_map_zero. intros j' Hj'%in_seq.
      apply count2_zero; distinct_links.
Qed.

Lemma internal_links_none (nc pc a b : nat) :
  a < 2 + nc \/ b < 2 + nc -> emitted (internal_links nc pc) a b = 0.
Proof.
  intros H. apply count_occ_flat_map_zero. intros i Hi%in_seq.
  apply count_occ_flat_map_zero. intros j Hj%in_seq.
  apply count_occ_flat_map_zero. intros k Hk%in_seq.
  apply count2_zero; distinct_links.
Qed.

Lemma internal_links_across (nc pc i i' j k : nat) :
  j < pc -> k < pc -> i <> i' ->
  emitted (internal_links nc pc) (member nc pc i j) (member nc pc i' k) = 0.
Proof.
  intros Hj Hk Hne. apply count_occ_flat_map_zero. intros i0 Hi0%in_seq.
  apply count_occ_flat_map_zero. intros j0 Hj0%in_seq.
  apply count_occ_flat_map_zero. intros k0 Hk0%in_seq.
  apply count2_zero; distinct_links.
Qed.

Lemma internal_links_once_ordered (nc pc i j k : nat) :
  i < nc -> j < k -> k < pc ->
  emitted (internal_links nc pc) (member nc pc i j) (member nc pc i k) = 1
  /\ emitted (internal_links nc pc) (member nc pc i k) (member nc pc i j) = 1.
Proof.
  intros Hi Hjk Hk. unfold emitted, internal_links.
  split.
  - rewrite count_occ_flat_map_single with (i0 := i);
      [| apply seq_NoDup | apply in_seq; lia |].
    + rewrite count_occ_flat_map_single with (i0 := j);
        [| apply seq_NoDup | apply in_seq; lia |].
      * rewrite count_occ_flat_map_single with (i0 := k);
          [apply count2_first; distinct_links | apply seq_NoDup | apply in_seq; lia |].
        intros k' Hk'%in_seq Hne. apply count2_zero; distinct_links.
      * intros j' Hj'%in_seq Hne. apply count_occ_flat_map_zero. intros k' Hk'%in_seq.
        apply count2_zero; distinct_links.
    + intros i' Hi'%in_seq Hne. apply count_occ_flat_map_zero. intros j' Hj'%in_seq.
      apply count_occ_flat_map_zero. intros k' Hk'%in_seq.
      apply count2_zero; distinct_links.
  - rewrite count_occ_flat_map_single with (i0 := i);
      [| apply seq_NoDup | apply in_seq; lia |].
    + rewrite count_occ_flat_map_single with (i0 := j);
        [| apply seq_NoDup | apply in_seq; lia |].
      * rewrite count_occ_flat_map_single with (i0 := k);
          [apply count2_second; distinct_links | apply seq_NoDup | apply in_seq; lia |].
        intros k' Hk'%in_seq Hne. apply count2_zero; distinct_links.
      * intros j' Hj'%in_seq Hne. apply count_occ_flat_map_zero. intros k' Hk'%in_seq.
        apply count2_zero; distinct_links.
    + intros i' Hi'%in_seq Hne. apply count_occ_flat_map_zero. intros j' Hj'%in_seq.
      apply count_occ_flat_map_zero. intros k' Hk'%in_seq.
      apply count2_zero; distinct_links.
Qed.

Lemma static_links_intended (nc pc a b : nat) :
  In (a, b) (gateway_links nc ++ relay_links nc pc ++ internal_links nc pc) ->
  intended nc pc a b.
Proof.
  unfold gateway_links, relay_links, internal_links.
  rewrite !in_app_iff, !in_flat_map.
  intros [(i & Hi%in_seq & H) | [(i & Hi%in_seq & H) | (i & Hi%in_seq & H)]].
  - destruct H as [E | [E | []]]; apply pair_equal_spec in E; destruct E; subst;
      constructor; lia.
  - apply in_flat_map in H. destruct H as (j & Hj%in_seq & H).
    destruct H as [E | [E | []]]; apply pair_equal_spec in E; destruct E; subst;
      constructor; lia.
  - apply in_flat_map in H. destruct H as (j & Hj%in_seq & H).
    apply in_flat_map in H. destruct H as (k & Hk%in_seq & H).
    destruct H as [E | [E | []]]; apply pair_equal_spec in E; destruct E; subst;
      constructor; lia.
Qed.

Lemma static_links_once (nc pc a b : nat) :
  intended nc pc a b ->
  emitted (gateway_links nc ++ relay_links nc pc ++ internal_links nc pc) a b = 1.
Proof.
  intros H. unfold emitted. rewrite !count_occ_app.
  fold (emitted (gateway_links nc) a b) (emitted (relay_links nc pc) a b)
       (emitted (internal_links nc pc) a b).
  destruct H as [i Hi | i Hi | i j Hi Hj | i j Hi Hj | i j k Hi Hj Hk Hjk].
  - rewrite (proj1 (gateway_links_once Hi)), relay_links_none, internal_links_none;
      unfold gateway, relay; lia.
  - rewrite (proj2 (gateway_links_once Hi)), relay_links_none, internal_links_none;
      unfold gateway, relay; lia.
  - rewrite (proj1 (relay_links_once Hi Hj)), gateway_links_none, internal_links_none;
      unfold member, relay; lia.
  - rewrite (proj2 (relay_links_once Hi Hj)), gateway_links_none, internal_links_none;
      unfold member, relay; lia.
  - rewrite gateway_links_none, relay_links_none by (unfold member, gateway; lia).
    destruct (Nat.lt_ge_cases j k) as [Hlt | Hge].
    + now rewrite (proj1 (internal_links_once_ordered Hi Hlt Hk)).
    + assert (Hlt : k < j) by lia.
      now rewrite (proj2 (internal_links_once_ordered Hi Hlt Hj)).
Qed.

(** C2. The links of the static [generate_connections], for all cluster
    counts and per-cluster counts: two distinct members of one cluster are
    linked exactly once in each direction, so each unordered pair appears
    exactly twice; members of different clusters are never linked; every
    relay is linked once each way with each member of its own cluster and
    once each way with the gateway; and nothing else is emitted: a directed
    link appears once if it is one of these intended links and not at all
    otherwise. *)
Theorem static_connections_graph (nc pc : nat) :
  let links := map endpoints (SmartHome.connection_entries nc pc) in
  (forall i j k, i < nc -> j < pc -> k < pc -> j <> k ->
     emitted links (member nc pc i j) (member nc pc i k) = 1
     /\ emitted links (member nc pc i k) (member nc pc i j) = 1)
  /\ (forall i i' j k, i < nc -> i' < nc -> j < pc -> k < pc -> i <> i' ->
        emitted links (member nc pc i j) (member nc pc i' k) = 0)
  /\ (forall i j, i < nc -> j < pc ->
        emitted links (relay i) (member nc pc i j) = 1
        /\ emitted links (member nc pc i j) (relay i) = 1)
  /\ (forall i, i < nc ->
        emitted links gateway (relay i) = 1 /\ emitted links (relay i) gateway = 1)
  /\ (forall a b, intended nc pc a b -> emitted links a b = 1)
  /\ (forall a b, ~ intended nc pc a b -> emitted links a b = 0).
Proof.
  intros links. subst links. rewrite static_links_unfolded.
  assert (Hnone : forall a b, ~ intended nc pc a b ->
            emitted (gateway_links nc ++ relay_links nc pc ++ internal_links nc pc) a b = 0).
  { intros a b Hnot. apply count_occ_not_In. intros Hin.
    apply Hnot. now apply static_links_intended. }
  repeat split.
  - apply static_links_once. now constructor.
  - apply static_links_once. constructor; auto.
  - intros i i' j k Hi Hi' Hj Hk Hne. unfold emitted. rewrite !count_occ_app.
    fold (emitted (gateway_links nc) (member nc pc i j) (member nc pc i' k))
         (emitted (relay_links nc pc) (member nc pc i j) (member nc pc i' k))
         (emitted (internal_links nc pc) (member nc pc i j) (member nc pc i' k)).
    rewrite gateway_links_none, relay_links_none, internal_links_across;
      unfold member; auto; lia.
  - apply static_links_once. now constructor.
  - apply static_links_once. now constructor.
  - apply static_links_once. now constructor.
  - apply static_links_once. now constructor.
  - apply static_links_once.
  - exact Hnone.
Qed.

(* ================================================================== *)
(** * Metric extraction *)
(* ================================================================== *)

Lemma bind_Ok {A : Type} (m : result A) : (x <- m ;; Ok x) = m.
Proof. now destruct m. Qed.

Lemma bind_assoc {A B C : Type} (m : result A) (f : A -> result B) (g : B -> result C) :
  (y <- (x <- m ;; f x) ;; g y) = (x <- m ;; y <- f x ;; g y).
Proof. now destruct m. Qed.

Lemma bind_ext {A B : Type} (m : result A) (f g : A -> result B) :
  (forall x, f x = g x) -> Py.bind m f = Py.bind m g.
Proof. intros H. destruct m; simpl; auto. Qed.

Lemma bind_cong {A B : Type} (m m' : result A) (f g : A -> result B) :
  m = m' -> (forall x, f x = g x) -> Py.bind m f = Py.bind m' g.
Proof. intros <-. apply bind_ext. Qed.

(** A loop that skips some elements and appends one computed value for each
    of the others collects the values of the elements it keeps. *)
Lemma for_inM_collect {A B : Type} (keep : A -> bool) (f : A -> result B)
    (body : A -> list B -> result (list B)) :
  (forall x acc,
      body x acc = if keep x then y <- f x ;; Ok (acc ++ [y]) else Ok acc) ->
  forall xs acc,
    for_inM xs body acc = (ys <- each f (filter keep xs) ;; Ok (acc ++ ys)).
Proof.
  intros Hbody xs. induction xs as [|x xs IH]; intros acc; simpl.
  - now rewrite app_nil_r.
  - rewrite Hbody. destruct (keep x); simpl.
    + destruct (f x) as [y|e]; simpl; [|reflexivity].
      rewrite IH. destruct (each f _) as [ys|e]; simpl; [|reflexivity].
      now rewrite <- app_assoc.
    + apply IH.
Qed.

Lemma each_ext {A B : Type} (f g : A -> result B) (xs : list A) :
  (forall x, f x = g x) -> each f xs = each g xs.
Proof.
  intros H. induction xs as [|x xs IH]; simpl; [reflexivity|].
  now rewrite H, IH.
Qed.

Lemma each_map {A B C : Type} (f : B -> result C) (g : A -> B) (xs : list A) :
  each f (map g xs) = each (fun x => f (g x)) xs.
Proof.
  induction xs as [|x xs IH]; simpl; [reflexivity|]. now rewrite IH.
Qed.

Lemma str_in_reserved (node : string) :
  str_in node ["global-stats"; "1"] = reserved_node node.
Proof.
  unfold str_in, reserved_node. simpl. now rewrite orb_false_r.
Qed.

(** Case analysis on the first [each] of the goal. *)
Ltac case_each :=
  match goal with
  | |- context [each ?f ?l] => destruct (each f l); simpl; try reflexivity
  end.

Section SingleMetric.
Context {N : Type}.

Lemma extract_metric_refines (experiments : list (Experiment N)) (metric_name : string)
    (default_value : value N) (aggregate_function : list (value N) -> result (value N)) :
  SmartHome.extract_metric experiments (metric_name, default_value) aggregate_function
  = extractMetric experiments metric_name default_value aggregate_function.
Proof.
  unfold SmartHome.extract_metric, extractMetric.
  rewrite for_inM_collect with
    (keep := fun _ => true)
    (f := fun exp : Experiment N =>
            tree <- results_of exp ;;
            each (fun '(_, nodes) =>
              values <- each (fun '(_, node_results) =>
                          read_metric metric_name default_value node_results) nodes ;;
              aggregate_function values) (usable tree)).
  - replace (filter (fun _ => true) experiments) with experiments
      by (induction experiments; simpl; congruence).
    case_each.
  - intros exp acc. destruct (results_of exp) as [tree|e]; simpl; [|reflexivity].
    rewrite for_inM_collect with
      (keep := fun '(run, _) => negb (reserved_run run))
      (f := fun '(_, nodes) =>
              values <- each (fun '(_, node_results) =>
                          read_metric metric_name default_value node_results)
                          (filter (fun '(node, _) => negb (reserved_node node)) nodes) ;;
              aggregate_function values).
    + unfold usable. rewrite each_map. rewrite bind_assoc.
      apply bind_cong; [|reflexivity].
      apply each_ext. now intros [run nodes].
    + intros [run nodes] acc'. unfold reserved_run.
      destruct (String.eqb run "aggregate-stats"); [reflexivity|]. simpl negb. cbv iota.
      rewrite for_inM_collect with
        (keep := fun '(node, _) => negb (reserved_node node))
        (f := fun '(_, node_results) =>
                read_metric metric_name default_value node_results).
      * case_each.
      * intros [node node_results] acc''.
        pose proof (str_in_reserved node) as E. unfold str_in in E. simpl in E.
        rewrite E.
        destruct (reserved_node node); [reflexivity|]. simpl negb. cbv iota.
        unfold read_metric.
        destruct (dict_get node_results metric_name) as [[x|]|e]; reflexivity.
Qed.

(** The result only depends on the usable part of each tree. *)
Lemma extractMetric_usable (experiments : list (Experiment N)) (metric_name : string)
    (default_value : value N) (aggregate_function : list (value N) -> result (value N)) :
  extractMetric experiments metric_name default_value aggregate_function
  = each (fun loaded : option (results_tree N) =>
            match loaded with
            | None => Raise TypeError
            | Some kept =>
                each (fun '(_, nodes) =>
                  values <- each (fun '(_, node_results) =>
                              read_metric metric_name default_value node_results) nodes ;;
                  aggregate_function values) kept
            end)
      (map (fun exp => option_map usable (results exp)) experiments).
Proof.
  unfold extractMetric. rewrite each_map. apply each_ext.
  intros exp. unfold results_of. now destruct (results exp).
Qed.

End SingleMetric.

(** C3. [extract_metric] does what the specification says of single-metric
    extraction: for each experiment and each run other than
    ["aggregate-stats"], it skips the nodes ["1"] and ["global-stats"],
    reads the metric of every other node with the default in place of a
    null, and reduces the values with the aggregation function.  On one run
    with nodes 2 and 3 holding 5 and null, default 10 and [mean], the result
    for the run is 7.5 in binary64 arithmetic whatever the rows ["1"],
    ["global-stats"] and the run ["aggregate-stats"] hold; and in general two
    lists of experiments whose trees agree outside the reserved runs and
    rows give the same result. *)
Theorem extract_metric_skips_and_defaults :
  (forall (N : Type) (experiments : list (Experiment N)) (metric_name : string)
          (default_value : value N) (aggregate_function : list (value N) -> result (value N)),
      SmartHome.extract_metric experiments (metric_name, default_value) aggregate_function
      = extractMetric experiments metric_name default_value aggregate_function)
  /\ (forall (gateway_row summary_row : dict (value float))
             (aggregate_run : dict (dict (value float))) (opts : dict optval),
        SmartHome.extract_metric
          [ {| name := "e"; results_dir := "./results-e"; options := opts;
               results := Some [ ("0", [ ("1", gateway_row);
                                         ("2", [("m", VNum (float_of_Z 5))]);
                                         ("3", [("m", VNone)]);
                                         ("global-stats", summary_row) ]);
                                 ("aggregate-stats", aggregate_run) ] |} ]
          ("m", VNum (float_of_Z 10)) (SmartHome.mean binary64)
        = Ok [[VNum 7.5%float]])
  /\ (forall (N : Type) (experiments experiments' : list (Experiment N))
             (metric_name : string) (default_value : value N)
             (aggregate_function : list (value N) -> result (value N)),
        map (fun exp => option_map usable (results exp)) experiments
        = map (fun exp => option_map usable (results exp)) experiments' ->
        SmartHome.extract_metric experiments (metric_name, default_value) aggregate_function
        = SmartHome.extract_metric experiments' (metric_name, default_value)
            aggregate_function).
Proof.
  split; [|split].
  - intros. apply extract_metric_refines.
  - intros. reflexivity.
  - intros N experiments experiments' metric_name default_value aggregate_function H.
    rewrite !extract_metric_refines, !extractMetric_usable. now rewrite H.
Qed.

(** The same for a loop that fills two lists in step. *)
Lemma for_inM_collect2 {A B C : Type} (keep : A -> bool) (f : A -> result (B * C))
    (body : A -> list B * list C -> result (list B * list C)) :
  (forall x acc1 acc2,
      body x (acc1, acc2)
      = if keep x then p <- f x ;; Ok (acc1 ++ [fst p], acc2 ++ [snd p])
        else Ok (acc1, acc2)) ->
  forall xs acc1 acc2,
    for_inM xs body (acc1, acc2)
    = (ps <- each f (filter keep xs) ;; Ok (acc1 ++ map fst ps, acc2 ++ map snd ps)).
Proof.
  intros Hbody xs. induction xs as [|x xs IH]; intros acc1 acc2; simpl.
  - now rewrite !app_nil_r.
  - rewrite Hbody. destruct (keep x); simpl.
    + destruct (f x) as [[y1 y2]|e]; simpl; [|reflexivity].
      rewrite IH. destruct (each f _) as [ps|e]; simpl; [|reflexivity].
      now rewrite <- !app_assoc.
    + apply IH.
Qed.

Lemma combine_fst_snd {B C : Type} (ps : list (B * C)) :
  combine (map fst ps) (map snd ps) = ps.
Proof.
  induction ps as [|[b c] ps IH]; simpl; congruence.
Qed.

Lemma filter_all {A : Type} (xs : list A) : filter (fun _ => true) xs = xs.
Proof. induction xs; simpl; congruence. Qed.

Section PairedMetrics.
Context {N : Type}.

Lemma extract_metrics_refines (experiments : list (Experiment N))
    (metric1_name metric2_name : string)
    (function : value N -> value N -> result (value N))
    (aggregate_function : list (value N) -> result (value N)) :
  SmartHome.extract_metrics experiments (metric1_name, metric2_name, function)
    aggregate_function
  = extractMetrics experiments metric1_name metric2_name function aggregate_function.
Proof.
  unfold SmartHome.extract_metrics, extractMetrics.
  rewrite for_inM_collect with
    (keep := fun _ => true)
    (f := fun exp : Experiment N =>
            tree <- results_of exp ;;
            aggregates <-
              each (fun '(_, nodes) =>
                pairs <- each (fun '(_, node_results) =>
                           v1 <- dict_get node_results metric1_name ;;
                           v2 <- dict_get node_results metric2_name ;;
                           Ok (v1, v2)) nodes ;;
                aggregate1 <- aggregate_function (map fst pairs) ;;
                aggregate2 <- aggregate_function (map snd pairs) ;;
                Ok (aggregate1, aggregate2)) (usable tree) ;;
            each (fun '(aggregate1, aggregate2) => function aggregate1 aggregate2)
              aggregates).
  - rewrite filter_all. case_each.
  - intros exp acc. destruct (results_of exp) as [tree|e]; simpl; [|reflexivity].
    rewrite for_inM_collect2 with
      (keep := fun '(run, _) => negb (reserved_run run))
      (f := fun '(_, nodes) =>
              pairs <- each (fun '(_, node_results) =>
                         v1 <- dict_get node_results metric1_name ;;
                         v2 <- dict_get node_results metric2_name ;;
                         Ok (v1, v2))
                         (filter (fun '(node, _) => negb (reserved_node node)) nodes) ;;
              aggregate1 <- aggregate_function (map fst pairs) ;;
              aggregate2 <- aggregate_function (map snd pairs) ;;
              Ok (aggregate1, aggregate2)).
    + unfold usable. rewrite each_map. rewrite !bind_assoc.
      apply bind_cong; [apply each_ext; now intros [run nodes]|].
      intros aggregates. simpl. rewrite combine_fst_snd.
      rewrite for_inM_collect with
        (keep := fun _ => true)
        (f := fun '(aggregate1, aggregate2) => function aggregate1 aggregate2).
      * rewrite filter_all. case_each.
      * now intros [x y] acc'.
    + intros [run nodes] acc1 acc2. unfold reserved_run.
      destruct (String.eqb run "aggregate-stats"); [reflexivity|]. simpl negb. cbv iota.
      rewrite for_inM_collect2 with
        (keep := fun '(node, _) => negb (reserved_node node))
        (f := fun '(_, node_results) =>
                v1 <- dict_get node_results metric1_name ;;
                v2 <- dict_get node_results metric2_name ;;
                Ok (v1, v2)).
      * simpl. case_each.
        destruct (aggregate_function (map fst a)); simpl; [|reflexivity].
        now destruct (aggregate_function (map snd a)).
      * intros [node node_results] acc1' acc2'.
        pose proof (str_in_reserved node) as E. unfold str_in in E. simpl in E.
        rewrite E.
        destruct (reserved_node node); [reflexivity|]. simpl negb. cbv iota.
        destruct (dict_get node_results metric1_name); simpl; [|reflexivity].
        now destruct (dict_get node_results metric2_name).
Qed.

End PairedMetrics.

(** C4. [extract_metrics] does what the specification says of paired
    extraction: with the run and node filtering of single-metric extraction
    it collects two parallel node-level sequences per run, reduces each with
    the aggregation function, and applies the combine function to the two
    aggregates of each run.  With the metrics lost and received, the
    delivery-ratio function of [main] and [mean], nodes holding (0, 10) and
    (2, 8) give the per-run aggregates (1, 9) and the result 90.0 in
    binary64 arithmetic. *)
Theorem extract_metrics_pairs_and_combines :
  (forall (N : Type) (experiments : list (Experiment N)) (metric1 metric2 : string)
          (combine_function : value N -> value N -> result (value N))
          (aggregate_function : list (value N) -> result (value N)),
      SmartHome.extract_metrics experiments (metric1, metric2, combine_function)
        aggregate_function
      = extractMetrics experiments metric1 metric2 combine_function aggregate_function)
  /\ (forall (gateway_row summary_row : dict (value float))
            (aggregate_run : dict (dict (value float))) (opts : dict optval),
        let exp :=
          {| name := "e"; results_dir := "./results-e"; options := opts;
             results :=
               Some [ ("0", [ ("1", gateway_row);
                              ("2", [("lost", VNum (float_of_Z 0));
                                     ("received", VNum (float_of_Z 10))]);
                              ("3", [("lost", VNum (float_of_Z 2));
                                     ("received", VNum (float_of_Z 8))]);
                              ("global-stats", summary_row) ]);
                      ("aggregate-stats", aggregate_run) ] |} in
        SmartHome.extract_metric [exp] ("lost", VNone) (SmartHome.mean binary64)
        = Ok [[VNum 1%float]]
        /\ SmartHome.extract_metric [exp] ("received", VNone) (SmartHome.mean binary64)
           = Ok [[VNum 9%float]]
        /\ SmartHome.extract_metrics [exp] ("lost", "received", SmartHome.pdr binary64)
             (SmartHome.mean binary64)
           = Ok [[VNum 90%float]]).
Proof.
  split.
  - intros. apply extract_metrics_refines.
  - intros. repeat split; reflexivity.
Qed.

(* ================================================================== *)
(** * Chart bounds and error bars *)
(* ================================================================== *)

Lemma prefix_spec (p s : string) :
  String.prefix p s = true <-> exists post, s = (p ++ post)%string.
Proof.
  revert s. induction p as [|c p IH]; intros s; simpl.
  - split; [intros _; now exists s | now destruct s].
  - destruct s as [|c' s]; simpl.
    + split; [discriminate | intros [post H]; discriminate].
    + destruct (Ascii.ascii_dec c c') as [->|Hne].
      * rewrite IH. split; intros [post H]; exists post; [now subst|].
        now injection H.
      * split; [discriminate|]. intros [post H]. injection H. intros _ E.
        now symmetry in E.
Qed.

(** [contains sub s] holds exactly when [sub] occurs somewhere in [s]. *)
Lemma contains_spec (sub s : string) :
  contains sub s = true <-> exists pre post, s = (pre ++ sub ++ post)%string.
Proof.
  induction s as [|c s IH].
  - change (contains sub "") with (String.prefix sub "").
    rewrite prefix_spec. split.
    + intros [post H]. now exists EmptyString, post.
    + intros (pre & post & H). destruct pre; simpl in H.
      * now exists post.
      * discriminate.
  - change (contains sub (String c s))
      with (String.prefix sub (String c s) || contains sub s).
    rewrite orb_true_iff, prefix_spec, IH. split.
    + intros [[post H] | (pre & post & H)].
      * now exists EmptyString, post.
      * exists (String c pre), post. simpl. now rewrite H.
    + intros (pre & post & H). destruct pre as [|c' pre]; simpl in H.
      * left. now exists post.
      * right. exists pre, post. now injection H.
Qed.

Section Reduce.
Context {N : Type} (ops : num_ops N).

Lemma reduce_series_from (results : list (list (value N)))
    (acc1 acc2 acc3 : list (value N)) :
  for_inM results (fun result '(mean_values, min_values, max_values) =>
    s <- py_sum ops result ;;
    m <- py_truediv ops s (py_len ops result) ;;
    mn <- py_min ops result ;;
    mx <- py_max ops result ;;
    Ok (mean_values ++ [m], min_values ++ [mn], max_values ++ [mx])) (acc1, acc2, acc3)
  = (triples <- each (fun result =>
                  m <- series_mean ops result ;;
                  mn <- py_min ops result ;;
                  mx <- py_max ops result ;;
                  Ok (m, mn, mx)) results ;;
     Ok (acc1 ++ map (fun t => fst (fst t)) triples,
         acc2 ++ map (fun t => snd (fst t)) triples,
         acc3 ++ map snd triples)).
Proof.
  revert acc1 acc2 acc3. induction results as [|r results IH]; intros acc1 acc2 acc3; simpl.
  - now rewrite !app_nil_r.
  - change (series_mean ops r)
      with (s <- py_sum ops r ;; py_truediv ops s (py_len ops r)).
    destruct (py_sum ops r) as [s|e]; simpl; [|reflexivity].
    destruct (py_truediv ops s (py_len ops r)) as [m|e]; simpl; [|reflexivity].
    destruct (py_min ops r) as [mn|e]; simpl; [|reflexivity].
    destruct (py_max ops r) as [mx|e]; simpl; [|reflexivity].
    rewrite IH. case_each. now rewrite <- !app_assoc.
Qed.

Lemma each_Ok_map {A B C : Type} (f : A -> result B) (g : B -> C) (h : A -> result C)
    (xs : list A) (ys : list B) :
  (forall x y, f x = Ok y -> h x = Ok (g y)) ->
  each f xs = Ok ys -> each h xs = Ok (map g ys).
Proof.
  intros Hfh. revert ys. induction xs as [|x xs IH]; intros ys H; simpl in *.
  - injection H as <-. reflexivity.
  - destruct (f x) as [y|e] eqn:Ey; simpl in H; [|discriminate].
    destruct (each f xs) as [ys'|e]; simpl in H; [|discriminate].
    injection H as <-. rewrite (Hfh _ _ Ey). simpl. now rewrite (IH ys' eq_refl).
Qed.

(** What the reducing loop of [plot] returns: the per-experiment means,
    minimums and maximums. *)
Lemma reduce_series_spec (results : list (list (value N)))
    (mean_values min_values max_values : list (value N)) :
  reduce_series ops results = Ok (mean_values, min_values, max_values) ->
  each (series_mean ops) results = Ok mean_values
  /\ each (py_min ops) results = Ok min_values
  /\ each (py_max ops) results = Ok max_values.
Proof.
  unfold reduce_series. rewrite reduce_series_from.
  destruct (each _ results) as [triples|e] eqn:E; simpl; [|discriminate].
  intros H. injection H as <- <- <-.
  repeat split.
  - eapply each_Ok_map; [|exact E]. intros r [[m mn] mx] H.
    destruct (series_mean ops r); simpl in *; [|discriminate].
    destruct (py_min ops r); simpl in *; [|discriminate].
    destruct (py_max ops r); simpl in *; [|discriminate]. congruence.
  - eapply each_Ok_map; [|exact E]. intros r [[m mn] mx] H.
    destruct (series_mean ops r); simpl in *; [|discriminate].
    destruct (py_min ops r); simpl in *; [|discriminate].
    destruct (py_max ops r); simpl in *; [|discriminate]. congruence.
  - eapply each_Ok_map; [|exact E]. intros r [[m mn] mx] H.
    destruct (series_mean ops r); simpl in *; [|discriminate].
    destruct (py_min ops r); simpl in *; [|discriminate].
    destruct (py_max ops r); simpl in *; [|discriminate]. congruence.
Qed.

End Reduce.

(** Splits a successful chain of binds in hypothesis [H] into its steps. *)
Ltac bind_inv H :=
  repeat match type of H with
    | Py.bind ?m _ = Ok _ =>
        let E := fresh "E" in
        destruct m eqn:E; simpl in H; [|discriminate H]
    | (let '(_, _) := ?p in _) = Ok _ => destruct p
    end.

Section Bounds.
Context {N : Type} (ops : num_ops N).

Lemma smart_home_plot_ylim {A : Type} (title : string) (experiments : list (Experiment N))
    (function : list (Experiment N) -> A -> SmartHome.aggregate
                -> result (list (list (value N))))
    (arguments : A) (aggregate_function : SmartHome.aggregate)
    (results : list (list (value N))) (c : chart N) :
  function experiments arguments aggregate_function = Ok results ->
  SmartHome.plot ops title experiments function arguments aggregate_function = Ok c ->
  expected_ylim ops title results = Ok (ylim c).
Proof.
  intros Hf H. unfold SmartHome.plot in H. rewrite Hf in H. simpl in H.
  bind_inv H. injection H as <-.
  match goal with
  | E : reduce_series ops results = Ok _ |- _ =>
      apply reduce_series_spec in E; destruct E as (_ & Hmin & Hmax)
  end.
  unfold expected_ylim. rewrite Hmin. simpl.
  repeat match goal with E : _ = Ok _ |- _ => rewrite E; simpl; clear E end.
  now destruct (contains "PDR" title).
Qed.

Lemma result_viz_plot_ylim {A : Type} (title : string) (experiments : list (Experiment N))
    (function : list (Experiment N) -> A -> result (list (list (value N))))
    (arguments : A) (results : list (list (value N))) (c : chart N) :
  function experiments arguments = Ok results ->
  ResultViz.plot ops experiments function arguments title = Ok c ->
  expected_ylim ops title results = Ok (ylim c).
Proof.
  intros Hf H. unfold ResultViz.plot in H. rewrite Hf in H. simpl in H.
  bind_inv H. injection H as <-.
  match goal with
  | E : reduce_series ops results = Ok _ |- _ =>
      apply reduce_series_spec in E; destruct E as (_ & Hmin & Hmax)
  end.
  unfold expected_ylim. rewrite Hmin. simpl.
  repeat match goal with E : _ = Ok _ |- _ => rewrite E; simpl; clear E end.
  now destruct (contains "PDR" title).
Qed.

End Bounds.

(** C5. Whenever [plot] (of either script) produces a chart from the series
    its extraction function returned, the y-axis limits it passes on are
    the floor of the least per-experiment minimum less one when the title
    contains ["PDR"], exactly 0 for every other title whatever the values,
    and in both cases the ceiling of the greatest per-experiment maximum
    plus one.  For instance the series [[90, 95], [87.5]] under a PDR title
    get the limits (86, 96), and the series [[3000, 3500], [3200.5]] under
    another title get (0, 3501). *)
Theorem plot_y_axis_bounds :
  (forall (N : Type) (ops : num_ops N) (A : Type) (title : string)
          (experiments : list (Experiment N))
          (function : list (Experiment N) -> A -> SmartHome.aggregate
                      -> result (list (list (value N))))
          (arguments : A) (aggregate_function : SmartHome.aggregate)
          (results : list (list (value N))) (c : chart N),
      function experiments arguments aggregate_function = Ok results ->
      SmartHome.plot ops title experiments function arguments aggregate_function = Ok c ->
      expected_ylim ops title results = Ok (ylim c))
  /\ (forall (N : Type) (ops : num_ops N) (A : Type) (title : string)
            (experiments : list (Experiment N))
            (function : list (Experiment N) -> A -> result (list (list (value N))))
            (arguments : A) (results : list (list (value N))) (c : chart N),
        function experiments arguments = Ok results ->
        ResultViz.plot ops experiments function arguments title = Ok c ->
        expected_ylim ops title results = Ok (ylim c))
  /\ (forall title : string,
        contains "PDR" title = true
        <-> exists pre post, title = (pre ++ "PDR" ++ post)%string)
  /\ (forall (N : Type) (ops : num_ops N) (title : string)
            (results : list (list (value N))) (lower upper : Z),
        contains "PDR" title = false ->
        expected_ylim ops title results = Ok (lower, upper) -> lower = 0%Z)
  /\ (c <- SmartHome.plot binary64 "Application PDR, %" []
             (fun _ _ _ => Ok [ [VNum 90%float; VNum 95%float]; [VNum 87.5%float] ])
             tt (SmartHome.mean binary64) ;;
      Ok (ylim c)) = Ok (86%Z, 96%Z)
  /\ (c <- SmartHome.plot binary64 "TSCH joining time, seconds" []
             (fun _ _ _ => Ok [ [VNum 3000%float; VNum 3500%float]; [VNum 3200.5%float] ])
             tt (SmartHome.mean binary64) ;;
      Ok (ylim c)) = Ok (0%Z, 3501%Z)
  /\ (c <- ResultViz.plot binary64 []
             (fun _ _ => Ok [ [VNum 3000%float; VNum 3500%float]; [VNum 3200.5%float] ])
             tt "TSCH joining time, seconds" ;;
      Ok (ylim c)) = Ok (0%Z, 3501%Z).
Proof.
  split; [|split; [|split; [|split; [|repeat split]]]].
  - intros. eapply smart_home_plot_ylim; eassumption.
  - intros. eapply result_viz_plot_ylim; eassumption.
  - intros title. apply contains_spec.
  - intros N ops title results lower upper Htitle H.
    unfold expected_ylim in H. bind_inv H. rewrite Htitle in H. now injection H.
Qed.

(** C6 (failing input). Three runs whose only counted node reports 0.1:
    [extract_metric] with [mean] yields the series [0.1, 0.1, 0.1]; its sum
    in binary64 is 0.30000000000000004 and the mean [plot] computes is
    0.10000000000000002, above the maximum 0.1, so the upper error-bar
    length [max - mean] is -1.3877787807814457e-17, a negative number. *)
Theorem plot_upper_error_bar_negative :
  let tenth := VNum 0x1.999999999999ap-4%float in
  let exp :=
    {| name := "e"; results_dir := "./results-e"; options := [];
       results := Some [ ("0", [("2", [("radio_duty_cycle_joined", tenth)])]);
                         ("1", [("2", [("radio_duty_cycle_joined", tenth)])]);
                         ("2", [("2", [("radio_duty_cycle_joined", tenth)])]) ] |} in
  SmartHome.extract_metric [exp] ("radio_duty_cycle_joined", VNum (float_of_Z 0))
    (SmartHome.mean binary64)
  = Ok [[tenth; tenth; tenth]]
  /\ exists c,
       SmartHome.plot binary64 "Radio duty cycle, %" [exp] (@SmartHome.extract_metric float)
         ("radio_duty_cycle_joined", VNum (float_of_Z 0)) (SmartHome.mean binary64) = Ok c
       /\ bar_heights c = [VNum 0x1.999999999999bp-4%float]
       /\ yerr_upper c = [VNum (-0x1p-56)%float]
       /\ PrimFloat.ltb (-0x1p-56)%float 0%float = true.
Proof.
  intros tenth exp. split; [reflexivity|].
  eexists. split; [reflexivity|]. repeat split.
Qed.

(* ================================================================== *)
(** * Options of an experiment *)
(* ================================================================== *)

Lemma dict_get_set_same {V : Type} (d : dict V) (k : string) (v : V) :
  dict_get (dict_set d k v) k = Ok v.
Proof.
  induction d as [|[k' v'] d IH]; simpl.
  - now rewrite String.eqb_refl.
  - destruct (String.eqb k' k) eqn:E; simpl; rewrite E; [reflexivity|exact IH].
Qed.

Lemma dict_get_set_other {V : Type} (d : dict V) (k k' : string) (v : V) :
  k' <> k -> dict_get (dict_set d k v) k' = dict_get d k'.
Proof.
  intros Hne. induction d as [|[k0 v0] d IH]; simpl.
  - destruct (String.eqb_spec k k'); [congruence|reflexivity].
  - destruct (String.eqb_spec k0 k) as [->|Hk0]; simpl.
    + destruct (String.eqb_spec k k'); [congruence|reflexivity].
    + destruct (String.eqb_spec k0 k'); [reflexivity|exact IH].
Qed.

(** The copying loop [for key in options: self.options[key] = options[key]]. *)
Lemma copied_options_absent (options d : dict optval) (k : string) :
  ~ In k (dict_keys options) ->
  dict_get (for_in options (fun '(key, value) acc => dict_set acc key value) d) k
  = dict_get d k.
Proof.
  unfold for_in, dict_keys. revert d.
  induction options as [|[k0 v0] options IH]; intros d Hk; simpl.
  - reflexivity.
  - simpl in Hk. rewrite IH by tauto. apply dict_get_set_other.
    intros ->. tauto.
Qed.

Lemma copied_options_present (options d : dict optval) (k : string) (v : optval) :
  NoDup (dict_keys options) -> dict_get options k = Ok v ->
  dict_get (for_in options (fun '(key, value) acc => dict_set acc key value) d) k = Ok v.
Proof.
  unfold for_in, dict_keys. revert d.
  induction options as [|[k0 v0] options IH]; intros d Hnd Hget; simpl in *.
  - discriminate.
  - inversion Hnd as [|? ? Hnotin Hnd']; subst.
    destruct (String.eqb_spec k0 k) as [->|Hne].
    + injection Hget as ->.
      change (fold_left _ options ?d0)
        with (for_in options (fun '(key, value) acc => dict_set acc key value) d0).
      rewrite copied_options_absent by exact Hnotin.
      apply dict_get_set_same.
    + now apply IH.
Qed.

(** Rewrites lookups through assignments of other keys or of the same key. *)
Ltac lookup :=
  repeat first
    [ rewrite dict_get_set_same
    | rewrite dict_get_set_other by (simpl in *; intuition congruence) ].

Section Options.
Context {F : Type} (fl : float_ops F) (N : Type).

(** C7 (amended). The options of a constructed experiment are merged in the
    order built-in defaults, then the caller's options, then the values
    derived from the topology.  For every options argument, the empty one
    included, the derived keys hold the derived values and a key that is
    neither derived nor passed by the caller holds its built-in default, if
    any; and every key of the caller's options that is not a derived key
    holds the caller's value. *)
Theorem experiment_options_precedence (nc pc : nat) (options : dict optval) :
  let static := Common.options (SmartHome.Experiment_init fl N nc pc options) in
  let mobile := Common.options (Mobility.Experiment_init fl N nc pc options) in
  (dict_get static "NUM_NODES" = Ok (OStr (str_of_nat (1 + nc + nc * pc)))
   /\ dict_get static "CONNECTIONS" = Ok (OStr (SmartHome.generate_connections nc pc))
   /\ dict_get static "POSITIONS" = Ok (OStr (SmartHome.generate_positions fl nc pc)))
  /\ (dict_get mobile "NUM_ROUTER_NODES" = Ok (OStr (str_of_nat (1 + nc)))
      /\ dict_get mobile "NUM_STATIC_LEAF_NODES"
         = Ok (OStr (str_of_nat (nc * (pc * 2 / 3))))
      /\ dict_get mobile "NUM_MOBILE_LEAF_NODES"
         = Ok (OStr (str_of_nat (nc * (pc - pc * 2 / 3))))
      /\ dict_get mobile "CONNECTIONS" = Ok (OStr (Mobility.generate_connections nc pc))
      /\ dict_get mobile "POSITIONS" = Ok (OStr (Mobility.generate_positions fl nc pc)))
  /\ (NoDup (dict_keys options) ->
      forall k v, dict_get options k = Ok v ->
        (~ In k static_derived -> dict_get static k = Ok v)
        /\ (~ In k mobile_derived -> dict_get mobile k = Ok v))
  /\ (forall k', ~ In k' (dict_keys options) -> ~ In k' static_derived ->
        dict_get static k'
        = dict_get [ ("SIMULATION_DURATION_SEC", OInt 3600);
                     ("RESULTS_DIR",
                      OStr (results_dir (SmartHome.Experiment_init fl N nc pc options))) ] k')
  /\ (forall k', ~ In k' (dict_keys options) -> ~ In k' mobile_derived ->
        dict_get mobile k'
        = dict_get (("RESULTS_DIR",
                     OStr (results_dir (Mobility.Experiment_init fl N nc pc options)))
                    :: Mobility.DEFAULT_OPTIONS) k').
Proof.
  intros static mobile. subst static mobile.
  unfold SmartHome.Experiment_init, Mobility.Experiment_init, static_derived, mobile_derived.
  cbv beta zeta match delta [Mobility.get_num_mobile_per_cluster Common.options
                               Common.results_dir].
  split; [|split; [|split; [|split]]].
  - repeat split; now lookup.
  - repeat split; now lookup.
  - intros Hnd k v Hget. split; intros Hk; lookup; now apply copied_options_present.
  - intros k' Hk' Hd. lookup. now rewrite copied_options_absent.
  - intros k' Hk' Hd. lookup. now rewrite copied_options_absent.
Qed.

End Options.

(** C7 (counterexample). A caller who passes ["NUM_NODES"] does not get it:
    the constructed options hold the derived node count, for one cluster
    without members the text ["2"]. *)
Lemma experiment_options_override_lost :
  let options := [("NUM_NODES", OStr "99")] in
  dict_get options "NUM_NODES" = Ok (OStr "99")
  /\ (forall (F : Type) (fl : float_ops F) (N : Type),
        dict_get (Common.options (SmartHome.Experiment_init fl N 1 0 options)) "NUM_NODES"
        = Ok (OStr "2"))
  /\ OStr "2" <> OStr "99"
  /\ ~ (forall (F : Type) (fl : float_ops F) (N : Type) (nc pc : nat)
               (options : dict optval) (k : string) (v : optval),
          dict_get options k = Ok v ->
          dict_get (Common.options (SmartHome.Experiment_init fl N nc pc options)) k = Ok v).
Proof.
  intros options. split; [reflexivity|]. split; [reflexivity|]. split; [discriminate|].
  intros H.
  specialize (H float sample_floats float 1 0 options "NUM_NODES" (OStr "99") eq_refl).
  discriminate H.
Qed.

(** C7 (witness). A caller's simulation duration of 60 seconds, passed
    next to a node count that is not honoured, is what both constructors
    store; without any options the static constructor stores the default
    duration and the derived node count. *)
Lemma experiment_options_precedence_witness :
  let options := [("SIMULATION_DURATION_SEC", OInt 60); ("NUM_NODES", OStr "99")] in
  NoDup (dict_keys options)
  /\ dict_get options "SIMULATION_DURATION_SEC" = Ok (OInt 60)
  /\ dict_get (Common.options (SmartHome.Experiment_init sample_floats float 3 1 options))
       "SIMULATION_DURATION_SEC" = Ok (OInt 60)
  /\ dict_get (Common.options (Mobility.Experiment_init sample_floats float 3 1 options))
       "SIMULATION_DURATION_SEC" = Ok (OInt 60)
  /\ dict_get (Common.options (SmartHome.Experiment_init sample_floats float 3 1 []))
       "SIMULATION_DURATION_SEC" = Ok (OInt 3600)
  /\ dict_get (Common.options (SmartHome.Experiment_init sample_floats float 3 1 []))
       "NUM_NODES" = Ok (OStr "7").
Proof.
  intros options.
  assert (Hnd : NoDup (dict_keys options)).
  { repeat constructor; simpl; intuition discriminate. }
  assert (Hget : dict_get options "SIMULATION_DURATION_SEC" = Ok (OInt 60)) by reflexivity.
  pose proof (@experiment_options_precedence float sample_floats float 3 1 options) as H.
  pose proof (@experiment_options_precedence float sample_floats float 3 1 []) as H0.
  cbv zeta in H, H0.
  destruct H as (_ & _ & Hcaller & _).
  destruct H0 as ((Hnodes & _) & _ & _ & Hdefault & _).
  destruct (Hcaller Hnd "SIMULATION_DURATION_SEC" (OInt 60) Hget) as (Hs & Hm).
  split; [exact Hnd|]. split; [exact Hget|].
  split; [|split; [|split]].
  - apply Hs. unfold static_derived. simpl. intuition discriminate.
  - apply Hm. unfold mobile_derived. simpl. intuition discriminate.
  - rewrite Hdefault; [reflexivity| simpl; tauto
                      | unfold static_derived; simpl; intuition discriminate].
  - exact Hnodes.
Defined.

(* ================================================================== *)
(** * Rendering of the configuration file *)
(* ================================================================== *)

Lemma replace_absent (old new s : string) :
  contains old s = false -> replace old new s = s.
Proof.
  destruct old as [|c old].
  - destruct s; discriminate.
  - unfold replace. induction s as [|a s IH]; [reflexivity|].
    change (contains (String c old) (String a s))
      with (String.prefix (String c old) (String a s) || contains (String c old) s).
    intros H. apply orb_false_elim in H. destruct H as [Hp Hc].
    cbn [replace_from]. rewrite Hp. now rewrite IH.
Qed.

(** Substituting options none of whose tokens occurs leaves the text as it is. *)
Lemma substitute_absent (render : optval -> string) (options : dict optval)
    (contents : string) :
  (forall key value, In (key, value) options ->
     contains ("%" ++ key ++ "%") contents = false) ->
  for_in options (fun '(key, value) contents =>
    replace ("%" ++ key ++ "%")%string (render value) contents) contents = contents.
Proof.
  unfold for_in. induction options as [|[key value] options IH]; intros H;
    cbn [fold_left].
  - reflexivity.
  - rewrite replace_absent by (apply (H key value); now left).
    apply IH. intros key' value' Hin. apply (H key' value'). now right.
Qed.

(** C8 (amended). Config rendering fails, writing nothing, when the
    template cannot be read.  When the template is read it never fails:
    it writes [config-<name>.json] whatever placeholders the template holds,
    and when none of the tokens of the options occurs in the template the
    written text is the template itself, unmatched [%KEY%] tokens included.
    This holds for the rendering of both scripts. *)
Theorem config_rendering_outcomes (name : string) (options : dict optval) (fs : files) :
  (forall e, read_file fs SmartHome.CONFIG_TEMPLATE_NAME = Raise e ->
     SmartHome.generate_config_file name options fs = (Raise e, fs)
     /\ ResultViz.generate_config_file name options fs = (Raise e, fs))
  /\ (forall contents, read_file fs SmartHome.CONFIG_TEMPLATE_NAME = Ok contents ->
        let filename := ("config-" ++ name ++ ".json")%string in
        exists written written',
          SmartHome.generate_config_file name options fs
          = (Ok filename, write_file fs filename written)
          /\ ResultViz.generate_config_file name options fs
             = (Ok filename, write_file fs filename written')
          /\ ((forall key value, In (key, value) options ->
                 contains ("%" ++ key ++ "%") contents = false) ->
              written = contents /\ written' = contents)).
Proof.
  unfold SmartHome.generate_config_file, ResultViz.generate_config_file.
  change ResultViz.CONFIG_TEMPLATE_NAME with SmartHome.CONFIG_TEMPLATE_NAME.
  split.
  - intros e H. now rewrite H.
  - intros contents H. cbv zeta. rewrite H. eexists. eexists.
    split; [reflexivity|]. split; [reflexivity|].
    intros Habsent. split; now apply substitute_absent.
Qed.

(** C8 (counterexample). A template with a placeholder for which the
    options have no key is rendered without failure, and the written file
    still holds the placeholder. *)
Lemma config_rendering_keeps_unmatched_placeholder :
  let template := "duration: %SIMULATION_DURATION_SEC%, nodes: %NUM_NODES%" in
  let options := [("SIMULATION_DURATION_SEC", OInt 3600)] in
  let fs := [("config.json.tmpl", template)] in
  let rendered := "duration: 3600, nodes: %NUM_NODES%" in
  SmartHome.generate_config_file "e" options fs
  = (Ok "config-e.json", [("config.json.tmpl", template); ("config-e.json", rendered)])
  /\ ResultViz.generate_config_file "e" options fs
     = (Ok "config-e.json", [("config.json.tmpl", template); ("config-e.json", rendered)])
  /\ contains "%NUM_NODES%" rendered = true.
Proof.
  repeat split.
Qed.

(* ================================================================== *)
(** * The two single-metric extractions compared *)
(* ================================================================== *)

Lemma each_length {A B : Type} (f : A -> result B) (xs : list A) (ys : list B) :
  each f xs = Ok ys -> List.length ys = List.length xs.
Proof.
  revert ys. induction xs as [|x xs IH]; intros ys H; simpl in H.
  - now injection H as <-.
  - destruct (f x); simpl in H; [|discriminate].
    destruct (each f xs) as [ys'|]; simpl in H; [|discriminate].
    injection H as <-. simpl. now rewrite (IH ys' eq_refl).
Qed.

Section Compared.
Context {N : Type} (ops : num_ops N) (metric_name : string) (default : N).

Lemma read_number_at (node : string) (node_results : dict (value N)) :
  read_number metric_name default (node, node_results)
  = (v <- dict_get node_results metric_name ;;
     Ok match v with
        | VNum x => x
        | VNone => default
        end).
Proof. reflexivity. Qed.

(** The node loop of the result-visualization script keeps the running
    total and count of the numbers of the counted nodes. *)
Lemma viz_node_loop (nodes : dict (dict (value N))) (start : N) (n : nat) :
  for_inM nodes (fun '(node, node_results) '(total, num_nodes) =>
    if str_in node ["global-stats"; "1"] then Ok (total, num_nodes)
    else
      value <- dict_get node_results metric_name ;;
      let value :=
        match value with
        | VNone => VNum default
        | _ => value
        end in
      total <- py_add ops total value ;;
      Ok (total, num_nodes + 1)) (VNum start, n)
  = (xs <- each (read_number metric_name default) (filter counted_node nodes) ;;
     Ok (VNum (fold_left (n_add ops) xs start), n + List.length xs)).
Proof.
  revert start n. induction nodes as [|[node node_results] nodes IH]; intros start n.
  - simpl. now rewrite Nat.add_0_r.
  - cbn [for_inM filter]. unfold counted_node at 1. cbn [fst].
    rewrite (str_in_reserved node).
    destruct (reserved_node node); cbn [negb Py.bind].
    + apply IH.
    + cbn [each]. rewrite read_number_at.
      destruct (dict_get node_results metric_name) as [[x|]|e]; cbn [Py.bind py_add];
        try reflexivity;
        rewrite IH;
        destruct (each (read_number metric_name default) (filter counted_node nodes));
        cbn [Py.bind]; try reflexivity; cbn [List.length fold_left];
        do 2 f_equal; lia.
Qed.

(** What the result-visualization script computes for one run. *)
Lemma viz_extract_metric_unfolded (experiments : list (Experiment N)) :
  ResultViz.extract_metric ops experiments (metric_name, VNum default)
  = each (fun exp =>
      tree <- results_of exp ;;
      each (fun '(_, nodes) =>
        xs <- each (read_number metric_name default) (filter counted_node nodes) ;;
        py_truediv ops (VNum (fold_left (n_add ops) xs (n_int ops 0)))
          (VNum (n_int ops (Z.of_nat (List.length xs))))) tree) experiments.
Proof.
  unfold ResultViz.extract_metric.
  rewrite for_inM_collect with
    (keep := fun _ => true)
    (f := fun exp : Experiment N =>
            tree <- results_of exp ;;
            each (fun '(_, nodes) =>
              xs <- each (read_number metric_name default) (filter counted_node nodes) ;;
              py_truediv ops (VNum (fold_left (n_add ops) xs (n_int ops 0)))
                (VNum (n_int ops (Z.of_nat (List.length xs))))) tree).
  - rewrite filter_all. case_each.
  - intros exp acc. destruct (results_of exp) as [tree|e]; cbn [Py.bind]; [|reflexivity].
    rewrite for_inM_collect with
      (keep := fun _ => true)
      (f := fun '(_, nodes) =>
              xs <- each (read_number metric_name default) (filter counted_node nodes) ;;
              py_truediv ops (VNum (fold_left (n_add ops) xs (n_int ops 0)))
                (VNum (n_int ops (Z.of_nat (List.length xs))))).
    + rewrite filter_all. case_each.
    + intros [run nodes] acc'. rewrite viz_node_loop.
      destruct (each (read_number metric_name default) (filter counted_node nodes));
        reflexivity.
Qed.

End Compared.

(** C10 (failing input). The two single-metric extractions do not return
    equal sequences on every loaded tree.  On a tree that holds an
    ["aggregate-stats"] run the result-visualization script treats it as a
    run and returns one value more than the smart-home script, which skips
    it; on a run whose only nodes are ["1"] and ["global-stats"] the
    result-visualization script divides by the node count 0 and raises
    [ZeroDivisionError] where the smart-home script returns the mean 0.0 of
    no values. *)
Theorem extract_metric_implementations_differ :
  let five := VNum (float_of_Z 5) in
  let seven := VNum (float_of_Z 7) in
  let with_aggregate : Experiment float :=
    {| name := "a"; results_dir := "./results-a"; options := [];
       results := Some [ ("0", [("2", [("m", five)])]);
                         ("aggregate-stats", [("2", [("m", seven)])]) ] |} in
  let only_reserved : Experiment float :=
    {| name := "b"; results_dir := "./results-b"; options := [];
       results := Some [ ("0", [("1", [("m", five)]); ("global-stats", [("m", seven)])]) ] |} in
  let arguments := ("m", VNum (float_of_Z 0)) in
  SmartHome.extract_metric [with_aggregate] arguments (SmartHome.mean binary64)
  = Ok [[VNum 5%float]]
  /\ ResultViz.extract_metric binary64 [with_aggregate] arguments
     = Ok [[VNum 5%float; VNum 7%float]]
  /\ SmartHome.extract_metric [only_reserved] arguments (SmartHome.mean binary64)
     = Ok [[VNum 0%float]]
  /\ ResultViz.extract_metric binary64 [only_reserved] arguments
     = Raise ZeroDivisionError.
Proof.
  intros five seven with_aggregate only_reserved arguments.
  split; [reflexivity|]. split; [reflexivity|].
  split; reflexivity.
Qed.

(* ================================================================== *)
(** * Further properties of the metric extraction *)
(* ================================================================== *)

Lemma each_Forall2 {A B : Type} (f : A -> result B) (xs : list A) (ys : list B) :
  each f xs = Ok ys -> Forall2 (fun x y => f x = Ok y) xs ys.
Proof.
  revert ys. induction xs as [|x xs IH]; intros ys H; simpl in H.
  - injection H as <-. constructor.
  - destruct (f x) as [y|e] eqn:E; simpl in H; [|discriminate].
    destruct (each f xs) as [ys'|e]; simpl in H; [|discriminate].
    injection H as <-. constructor; [exact E|now apply IH].
Qed.

Lemma each_In {A B : Type} (f : A -> result B) (xs : list A) (ys : list B) (x : A) :
  each f xs = Ok ys -> In x xs -> exists y, f x = Ok y /\ In y ys.
Proof.
  intros H Hin. apply each_Forall2 in H.
  induction H as [|x' y' xs' ys' Hxy _ IH]; [contradiction|].
  destruct Hin as [->|Hin].
  - exists y'. split; [exact Hxy|now left].
  - destruct (IH Hin) as (y & Hy & Hin'). exists y. split; [exact Hy|now right].
Qed.

(** X2. When [extract_metric] returns, every experiment had loaded results,
    the result holds one sequence per experiment with one value per run
    other than ["aggregate-stats"], and every node other than ["1"] and
    ["global-stats"] of those runs had the metric key: a missing key is
    never defaulted. *)
Theorem extract_metric_success_shape (N : Type) (experiments : list (Experiment N))
    (metric_name : string) (default_value : value N)
    (aggregate_function : list (value N) -> result (value N))
    (extracted : list (list (value N))) :
  SmartHome.extract_metric experiments (metric_name, default_value) aggregate_function
  = Ok extracted ->
  Forall2 (fun exp series =>
    exists tree,
      results exp = Some tree
      /\ List.length series = List.length (usable tree)
      /\ forall run nodes node node_results,
           In (run, nodes) (usable tree) -> In (node, node_results) nodes ->
           exists v, dict_get node_results metric_name = Ok v)
    experiments extracted.
Proof.
  rewrite extract_metric_refines. unfold extractMetric. intros H.
  apply each_Forall2 in H.
  eapply Forall2_impl; [|exact H]. clear H. intros exp series H.
  unfold results_of in H. destruct (results exp) as [tree|]; [|discriminate].
  cbn [Py.bind] in H. exists tree. split; [reflexivity|]. split.
  - now apply each_length in H.
  - intros run nodes node node_results Hrun Hnode.
    destruct (each_In _ _ _ H Hrun) as (a & Ha & _).
    destruct (each _ nodes) as [values|e] eqn:E; [|discriminate].
    destruct (each_In _ _ _ E Hnode) as (v & Hv & _).
    unfold read_metric in Hv.
    destruct (dict_get node_results metric_name) as [v'|e]; [|discriminate].
    now exists v'.
Qed.

Lemma extract_metric_success_shape_witness :
  let exp : Experiment float :=
    {| name := "e"; results_dir := "./results-e"; options := [];
       results := Some [ ("0", [ ("1", []); ("2", [("m", VNum (float_of_Z 5))]) ]);
                         ("aggregate-stats", []) ] |} in
  Forall2 (fun exp series =>
    exists tree,
      results exp = Some tree
      /\ List.length series = List.length (usable tree)
      /\ forall run nodes node node_results,
           In (run, nodes) (usable tree) -> In (node, node_results) nodes ->
           exists v, dict_get node_results "m" = Ok v)
    [exp] [[VNum 5%float]].
Proof.
  intros exp.
  apply (@extract_metric_success_shape float [exp] "m" VNone (SmartHome.mean binary64)).
  reflexivity.
Defined.

Lemma py_sum_null {N : Type} (ops : num_ops N) (xs : list (value N)) (acc : value N) :
  In VNone xs ->
  for_inM xs (fun x acc => py_add ops acc x) acc = Raise TypeError.
Proof.
  revert acc. induction xs as [|x xs IH]; intros acc Hin; [contradiction|].
  cbn [for_inM]. destruct acc as [a|], x as [b|]; cbn [py_add Py.bind]; try reflexivity.
  apply IH. destruct Hin as [H|H]; [discriminate|exact H].
Qed.

Lemma mean_Ok_no_null {N : Type} (ops : num_ops N) (series : list (value N))
    (a : value N) :
  SmartHome.mean ops series = Ok a -> ~ In VNone series.
Proof.
  intros H Hin. unfold SmartHome.mean in H.
  destruct series as [|x xs]; [contradiction|].
  cbn [List.length Nat.eqb] in H. unfold py_sum in H.
  rewrite py_sum_null in H by exact Hin. discriminate.
Qed.

(** X3. [mean] has no treatment of nulls: on a series that holds a [None]
    it returns no value but raises, for every arithmetic (the sum fails
    with [TypeError] when it reaches the [None], if it gets that far). *)
Theorem mean_rejects_null (N : Type) (ops : num_ops N) (series : list (value N)) :
  In VNone series -> exists e, SmartHome.mean ops series = Raise e.
Proof.
  intros Hin. unfold SmartHome.mean.
  destruct series as [|x xs]; [contradiction|].
  cbn [List.length Nat.eqb]. unfold py_sum. rewrite py_sum_null by exact Hin.
  now exists TypeError.
Qed.

Lemma mean_rejects_null_witness :
  exists e, SmartHome.mean binary64 [VNum 1%float; VNone; VNum 2%float] = Raise e.
Proof.
  apply mean_rejects_null. right. now left.
Defined.

(** X4. When [extract_metrics] with [mean] returns, every experiment had
    loaded results, the result holds one sequence per experiment with one
    value per run other than ["aggregate-stats"], and every counted node of
    those runs held both metric keys with non-null values: paired
    extraction substitutes no default. *)
Theorem extract_metrics_success_shape (N : Type) (ops : num_ops N)
    (experiments : list (Experiment N)) (metric1 metric2 : string)
    (function : value N -> value N -> result (value N))
    (extracted : list (list (value N))) :
  SmartHome.extract_metrics experiments (metric1, metric2, function) (SmartHome.mean ops)
  = Ok extracted ->
  Forall2 (fun exp series =>
    exists tree,
      results exp = Some tree
      /\ List.length series = List.length (usable tree)
      /\ forall run nodes node node_results,
           In (run, nodes) (usable tree) -> In (node, node_results) nodes ->
           exists x1 x2,
             dict_get node_results metric1 = Ok (VNum x1)
             /\ dict_get node_results metric2 = Ok (VNum x2))
    experiments extracted.
Proof.
  rewrite extract_metrics_refines. unfold extractMetrics. intros H.
  apply each_Forall2 in H.
  eapply Forall2_impl; [|exact H]. clear H. intros exp series H.
  unfold results_of in H. destruct (results exp) as [tree|]; [|discriminate].
  cbn [Py.bind] in H. exists tree. split; [reflexivity|].
  match type of H with
  | context [each ?f (usable tree)] =>
      destruct (each f (usable tree)) as [aggregates|e] eqn:Eruns; [|discriminate]
  end.
  cbn [Py.bind] in H. split.
  - transitivity (List.length aggregates);
      [eapply each_length; exact H | eapply each_length; exact Eruns].
  - intros run nodes node node_results Hrun Hnode.
    destruct (each_In _ _ _ Eruns Hrun) as (a & Ha & _).
    match type of Ha with
    | context [each ?f nodes] =>
        destruct (each f nodes) as [pairs|e] eqn:E; [|discriminate]
    end.
    cbn [Py.bind] in Ha.
    destruct (each_In _ _ _ E Hnode) as ([v1 v2] & Hv & Hin).
    destruct (dict_get node_results metric1) as [v1'|e]; [|discriminate].
    destruct (dict_get node_results metric2) as [v2'|e]; [|discriminate].
    cbn [Py.bind] in Hv. injection Hv as -> ->.
    destruct (SmartHome.mean ops (map fst pairs)) as [a1|e] eqn:E1; [|discriminate].
    cbn [Py.bind] in Ha.
    destruct (SmartHome.mean ops (map snd pairs)) as [a2|e] eqn:E2; [|discriminate].
    destruct v1 as [x1|].
    + destruct v2 as [x2|]; [now exists x1, x2|].
      exfalso. apply (mean_Ok_no_null _ _ E2).
      change VNone with (snd (@VNum N x1, @VNone N)). now apply in_map.
    + exfalso. apply (mean_Ok_no_null _ _ E1).
      change VNone with (fst (@VNone N, v2)). now apply in_map.
Qed.

Lemma extract_metrics_success_shape_witness :
  let exp : Experiment float :=
    {| name := "e"; results_dir := "./results-e"; options := [];
       results := Some [ ("0", [ ("1", []);
                                 ("2", [("lost", VNum (float_of_Z 1));
                                        ("received", VNum (float_of_Z 9))]) ]);
                         ("aggregate-stats", []) ] |} in
  Forall2 (fun exp series =>
    exists tree,
      results exp = Some tree
      /\ List.length series = List.length (usable tree)
      /\ forall run nodes node node_results,
           In (run, nodes) (usable tree) -> In (node, node_results) nodes ->
           exists x1 x2,
             dict_get node_results "lost" = Ok (VNum x1)
             /\ dict_get node_results "received" = Ok (VNum x2))
    [exp] [[VNum 90%float]].
Proof.
  intros exp.
  apply (@extract_metrics_success_shape float binary64 [exp] "lost" "received"
           (SmartHome.pdr binary64)).
  reflexivity.
Defined.

Lemma filter_none {A : Type} (keep : A -> bool) (xs : list A) :
  existsb keep xs = false -> filter keep xs = [].
Proof.
  induction xs as [|x xs IH]; simpl; [reflexivity|].
  destruct (keep x); simpl; [discriminate|exact IH].
Qed.

(** X5. When [extract_metric] of the result-visualization script returns
    (numeric default, an arithmetic in which the int 0 is zero), every
    experiment had loaded results, the result holds one value for every run
    of the tree, none skipped, and every run had at least one node other
    than ["1"] and ["global-stats"]: a run without counted nodes makes the
    division by the node count raise. *)
Theorem viz_extract_metric_success_shape (N : Type) (ops : num_ops N)
    (experiments : list (Experiment N)) (metric_name : string) (default : N)
    (extracted : list (list (value N))) :
  n_is_zero ops (n_int ops 0) = true ->
  ResultViz.extract_metric ops experiments (metric_name, VNum default) = Ok extracted ->
  Forall2 (fun exp series =>
    exists tree,
      results exp = Some tree
      /\ List.length series = List.length tree
      /\ forall run nodes, In (run, nodes) tree -> existsb counted_node nodes = true)
    experiments extracted.
Proof.
  intros Hzero. rewrite viz_extract_metric_unfolded. intros H.
  apply each_Forall2 in H.
  eapply Forall2_impl; [|exact H]. clear H. intros exp series H.
  unfold results_of in H. destruct (results exp) as [tree|]; [|discriminate].
  cbn [Py.bind] in H. exists tree. split; [reflexivity|]. split.
  - eapply each_length; exact H.
  - intros run nodes Hrun.
    destruct (each_In _ _ _ H Hrun) as (a & Ha & _).
    destruct (existsb counted_node nodes) eqn:E; [reflexivity|].
    rewrite (filter_none _ _ E) in Ha. cbn [each Py.bind List.length Z.of_nat] in Ha.
    unfold py_truediv in Ha. rewrite Hzero in Ha. discriminate.
Qed.

Lemma viz_extract_metric_success_shape_witness :
  let exp : Experiment float :=
    {| name := "e"; results_dir := "./results-e"; options := [];
       results := Some [ ("0", [ ("1", []); ("2", [("m", VNum (float_of_Z 5))]) ]);
                         ("aggregate-stats", [ ("7", [("m", VNone)]) ]) ] |} in
  Forall2 (fun exp series =>
    exists tree,
      results exp = Some tree
      /\ List.length series = List.length tree
      /\ forall run nodes, In (run, nodes) tree -> existsb counted_node nodes = true)
    [exp] [[VNum 5%float; VNum 3%float]].
Proof.
  intros exp.
  apply (@viz_extract_metric_success_shape float binary64 [exp] "m" (float_of_Z 3));
    reflexivity.
Defined.

(* ================================================================== *)
(** * Further properties of the configuration rendering *)
(* ================================================================== *)

Lemma dict_set_twice {V : Type} (d : dict V) (k : string) (v : V) :
  dict_set (dict_set d k v) k v = dict_set d k v.
Proof.
  induction d as [|[k' v'] d IH]; simpl.
  - now rewrite String.eqb_refl.
  - destruct (String.eqb k' k) eqn:E; simpl; rewrite E; [reflexivity|now rewrite IH].
Qed.

Lemma read_file_written (fs : files) (filename contents : string) :
  read_file (write_file fs filename contents) filename = Ok contents.
Proof.
  unfold read_file, write_file. now rewrite dict_get_set_same.
Qed.

Lemma read_file_other (fs : files) (filename contents other : string) :
  other <> filename ->
  read_file (write_file fs filename contents) other = read_file fs other.
Proof.
  intros H. unfold read_file, write_file. now rewrite dict_get_set_other.
Qed.

Lemma config_name_not_template (name : string) :
  SmartHome.CONFIG_TEMPLATE_NAME <> ("config-" ++ name ++ ".json")%string.
Proof.
  unfold SmartHome.CONFIG_TEMPLATE_NAME. simpl. intros H. discriminate H.
Qed.

(** X6. Rendering a configuration never overwrites the template nor any
    file other than [config-<name>.json]; the file it names on success can
    be read back; and rendering again on the resulting files gives the same
    outcome and the same files (the config file is overwritten by the same
    text).  This holds for the rendering of both scripts. *)
Theorem generate_config_file_rerun (name : string) (options : dict optval) (fs : files) :
  let smart := SmartHome.generate_config_file name options fs in
  let viz := ResultViz.generate_config_file name options fs in
  (SmartHome.generate_config_file name options (snd smart) = smart
   /\ ResultViz.generate_config_file name options (snd viz) = viz)
  /\ (forall other, other <> ("config-" ++ name ++ ".json")%string ->
        read_file (snd smart) other = read_file fs other
        /\ read_file (snd viz) other = read_file fs other)
  /\ (read_file (snd smart) SmartHome.CONFIG_TEMPLATE_NAME
      = read_file fs SmartHome.CONFIG_TEMPLATE_NAME
      /\ read_file (snd viz) ResultViz.CONFIG_TEMPLATE_NAME
         = read_file fs ResultViz.CONFIG_TEMPLATE_NAME)
  /\ (forall filename,
        (fst smart = Ok filename -> exists text, read_file (snd smart) filename = Ok text)
        /\ (fst viz = Ok filename -> exists text, read_file (snd viz) filename = Ok text)).
Proof.
  pose proof (config_name_not_template name) as Hname.
  unfold SmartHome.generate_config_file, ResultViz.generate_config_file.
  change ResultViz.CONFIG_TEMPLATE_NAME with SmartHome.CONFIG_TEMPLATE_NAME.
  destruct (read_file fs SmartHome.CONFIG_TEMPLATE_NAME) as [contents|e] eqn:E;
    cbv zeta; cbn [fst snd].
  - repeat split.
    + rewrite read_file_other, E by exact Hname.
      unfold write_file. now rewrite dict_set_twice.
    + rewrite read_file_other, E by exact Hname.
      unfold write_file. now rewrite dict_set_twice.
    + now apply read_file_other.
    + now apply read_file_other.
    + now rewrite read_file_other.
    + now rewrite read_file_other.
    + intros H. injection H as <-. eexists. apply read_file_written.
    + intros H. injection H as <-. eexists. apply read_file_written.
  - repeat split; try reflexivity; try (now rewrite E); discriminate.
Qed.

Lemma str_of_Z_not_boolean (z : Z) : str_in (str_of_Z z) ["True"; "False"] = false.
Proof.
  unfold str_of_Z. destruct (Z.to_int z) as [d|d]; [|reflexivity].
  destruct d; reflexivity.
Qed.

Lemma render_value_agrees (value : optval) :
  (forall b, value <> OBool b) ->
  SmartHome.render_value value = ResultViz.render_value value.
Proof.
  intros Hbool. unfold SmartHome.render_value, ResultViz.render_value.
  destruct value as [s|z|b|]; cbn [is_str py_str andb].
  - destruct (contains newline s) eqn:En; cbn [negb]; [|reflexivity].
    destruct (str_in s ["True"; "False"]) eqn:Es; [|reflexivity].
    exfalso. unfold str_in in Es. cbn [existsb] in Es.
    apply orb_prop in Es. destruct Es as [Es|Es].
    + apply String.eqb_eq in Es. subst s. discriminate En.
    + rewrite orb_false_r in Es. apply String.eqb_eq in Es. subst s. discriminate En.
  - now rewrite str_of_Z_not_boolean.
  - now elim (Hbool b).
  - reflexivity.
Qed.

Lemma for_in_ext_in {A S : Type} (f g : A -> S -> S) (xs : list A) (s : S) :
  (forall x acc, In x xs -> f x acc = g x acc) -> for_in xs f s = for_in xs g s.
Proof.
  unfold for_in. revert s. induction xs as [|x xs IH]; intros s H; [reflexivity|].
  cbn [fold_left]. rewrite H by now left.
  apply IH. intros y acc Hy. apply H. now right.
Qed.

(** X7. The renderings of the smart-home and of the result-visualization
    script differ on booleans only: the former writes [true] and [false],
    the latter [True] and [False]; on options that hold no boolean value
    the two write the same file. *)
Theorem generate_config_file_scripts_agree (name : string) (options : dict optval)
    (fs : files) :
  (forall key b, ~ In (key, OBool b) options) ->
  SmartHome.generate_config_file name options fs
  = ResultViz.generate_config_file name options fs
  /\ (forall b, SmartHome.render_value (OBool b) = str_lower (ResultViz.render_value (OBool b))
                /\ SmartHome.render_value (OBool b) <> ResultViz.render_value (OBool b)).
Proof.
  intros Hbool. split.
  - unfold SmartHome.generate_config_file, ResultViz.generate_config_file.
    change ResultViz.CONFIG_TEMPLATE_NAME with SmartHome.CONFIG_TEMPLATE_NAME.
    destruct (read_file fs SmartHome.CONFIG_TEMPLATE_NAME) as [contents|e]; [|reflexivity].
    cbv zeta. do 2 f_equal.
    apply for_in_ext_in. intros [key value] acc Hin.
    rewrite render_value_agrees; [reflexivity|].
    intros b ->. exact (Hbool key b Hin).
  - intros [|]; split; try reflexivity; discriminate.
Qed.

Lemma generate_config_file_scripts_agree_witness :
  let options := [ ("SIMULATION_DURATION_SEC", OInt 3600);
                   ("SCHEDULING_ALGORITHM", OStr "Orchestra");
                   ("ORCHESTRA_RULES", OStr ResultViz.ORCHESTRA_RULES) ] in
  let fs := [ ("config.json.tmpl",
               "%SIMULATION_DURATION_SEC% %SCHEDULING_ALGORITHM% %ORCHESTRA_RULES%") ] in
  SmartHome.generate_config_file "e" options fs
  = ResultViz.generate_config_file "e" options fs.
Proof.
  intros options fs.
  apply (generate_config_file_scripts_agree "e" options fs).
  intros key b H. simpl in H.
  destruct H as [H|[H|[H|[]]]]; discriminate H.
Defined.

(* ================================================================== *)
(** * Further properties of the generated topologies *)
(* ================================================================== *)

Lemma length_flat_map_constant {A B : Type} (f : A -> list B) (c : nat) (l : list A) :
  (forall x, In x l -> List.length (f x) = c) ->
  List.length (flat_map f l) = List.length l * c.
Proof.
  induction l as [|x l IH]; intros H; [reflexivity|].
  cbn [flat_map List.length]. rewrite length_app, H by now left.
  rewrite IH; [simpl; lia|]. intros y Hy. apply H. now right.
Qed.

(** The links of one cluster appended for the first [n] members. *)
Lemma length_triangle {B : Type} (f : nat -> nat -> list B) (pc n : nat) :
  (forall j k, List.length (f j k) = 2) ->
  n <= pc ->
  List.length (flat_map (fun j => flat_map (f j) (seq (j + 1) (pc - (j + 1)))) (seq 0 n))
  + n * (n + 1) = 2 * n * pc.
Proof.
  intros Hf. induction n as [|n IH]; intros Hn; [reflexivity|].
  rewrite seq_S, flat_map_app, length_app. cbn [flat_map plus].
  rewrite app_nil_r.
  rewrite (@length_flat_map_constant _ _ (f n) 2) by (intros; apply Hf).
  rewrite length_seq. specialize (IH ltac:(lia)). nia.
Qed.

Lemma mobile_connection_entries_unfolded (nc pc : nat) :
  Mobility.connection_entries nc pc
  = flat_map (fun i =>
      [render_connection (fixed 1 (i + 2) Mobility.DEFAULT_RSSI
                            Mobility.TTP_TO_GATEWAY_LINK_QUALITY);
       render_connection (fixed (i + 2) 1 Mobility.DEFAULT_RSSI
                            Mobility.TTP_TO_GATEWAY_LINK_QUALITY)]) (seq 0 nc)
    ++ [Mobility.node_rule "mobile_leaf_nodes";
        Mobility.node_rule "static_leaf_nodes";
        Mobility.type_rule "static_leaf_nodes" "router_nodes";
        Mobility.type_rule "router_nodes" "static_leaf_nodes";
        Mobility.type_rule "mobile_leaf_nodes" "router_nodes";
        Mobility.type_rule "router_nodes" "mobile_leaf_nodes";
        Mobility.type_rule "mobile_leaf_nodes" "static_leaf_nodes";
        Mobility.type_rule "static_leaf_nodes" "mobile_leaf_nodes"].
Proof.
  unfold Mobility.connection_entries, range.
  rewrite (for_in_appends (fun i =>
      [render_connection (fixed 1 (i + 2) Mobility.DEFAULT_RSSI
                            Mobility.TTP_TO_GATEWAY_LINK_QUALITY);
       render_connection (fixed (i + 2) 1 Mobility.DEFAULT_RSSI
                            Mobility.TTP_TO_GATEWAY_LINK_QUALITY)])).
  - rewrite app_nil_l, <- !app_assoc. reflexivity.
  - intros i acc. now rewrite <- app_assoc.
Qed.

(** X8. The static [generate_connections] emits
    [nc * (2 + 2 * pc + pc * (pc - 1))] link descriptors: two per relay, two
    per member and two per pair of members of one cluster.  The mobile
    [generate_connections] emits [2 * nc + 8]: the gateway links and eight
    distance rules, whatever the per-cluster count. *)
Theorem connection_counts (nc pc : nat) :
  List.length (SmartHome.connection_entries nc pc) = nc * (2 + 2 * pc + pc * (pc - 1))
  /\ List.length (Mobility.connection_entries nc pc) = 2 * nc + 8
  /\ (forall pc', Mobility.connection_entries nc pc' = Mobility.connection_entries nc pc).
Proof.
  split; [|split].
  - rewrite <- (length_map endpoints), static_links_unfolded, !length_app.
    unfold gateway_links, relay_links, internal_links.
    rewrite length_flat_map_constant with (c := 2) by reflexivity.
    rewrite length_flat_map_constant with (c := pc * 2).
    2:{ intros i _. rewrite length_flat_map_constant with (c := 2) by reflexivity.
        now rewrite length_seq. }
    rewrite length_flat_map_constant with (c := pc * (pc - 1)).
    2:{ intros i _.
        pose proof (@length_triangle _
                      (fun j k => [(member nc pc i j, member nc pc i k);
                                   (member nc pc i k, member nc pc i j)])
                      pc pc (fun _ _ => eq_refl) (le_n pc)) as H.
        destruct pc as [|p]; [reflexivity|].
        replace (S p - 1) with p by lia. nia. }
    rewrite !length_seq. lia.
  - rewrite mobile_connection_entries_unfolded, length_app.
    rewrite length_flat_map_constant with (c := 2) by reflexivity.
    rewrite length_seq. simpl. lia.
  - intros pc'. now rewrite !mobile_connection_entries_unfolded.
Qed.

(** A property kept by every iteration is kept by the loop. *)
Lemma for_in_invariant {A S : Type} (P : S -> Prop) (body : A -> S -> S) (xs : list A) :
  (forall x s, P s -> P (body x s)) -> forall s, P s -> P (for_in xs body s).
Proof.
  intros Hbody. unfold for_in. induction xs as [|x xs IH]; intros s Hs; [exact Hs|].
  cbn [fold_left]. apply IH. now apply Hbody.
Qed.

Lemma static_position_ids {F : Type} (fl : float_ops F) (nc pc : nat) :
  map ID (SmartHome.position_entries fl nc pc) = seq 1 (1 + nc + nc * pc).
Proof.
  rewrite static_position_entries_unfolded.
  rewrite !map_app, map_map, flat_map_concat_map, concat_map, map_map.
  rewrite <- flat_map_concat_map. simpl.
  rewrite (map_ext _ (fun j => 2 + j)) by (intros; unfold relay; lia).
  rewrite map_offset_seq.
  rewrite (flat_map_ext _ (fun i => map (fun j => 2 + nc + i * pc + j) (seq 0 pc)))
    by (intros; now rewrite map_map).
  rewrite rows_consecutive.
  change (seq 1 (S (nc + nc * pc))) with (1 :: seq 2 (nc + nc * pc)).
  f_equal. rewrite seq_app. reflexivity.
Qed.

Lemma static_entries_fixed (nc pc : nat) :
  Forall (fun c => LINK_MODEL c = "Fixed" /\ RSSI c = (-80)%Z /\ LINK_QUALITY c = "0.9")
    (SmartHome.connection_entries nc pc).
Proof.
  unfold SmartHome.connection_entries.
  repeat (apply for_in_invariant; [intros ? ? ?|]);
    repeat (apply Forall_app; split; [|repeat constructor]);
    try assumption; try constructor.
Qed.

Lemma intended_in_range (nc pc a b : nat) :
  intended nc pc a b ->
  (1 <= a <= 1 + nc + nc * pc) /\ (1 <= b <= 1 + nc + nc * pc) /\ a <> b
  /\ intended nc pc b a.
Proof.
  intros H.
  destruct H as [i Hi | i Hi | i j Hi Hj | i j Hi Hj | i j k Hi Hj Hk Hjk];
    (split; [|split; [|split]]); try (now constructor); try (constructor; auto);
    unfold gateway, relay, member; try nia.
Qed.

(** X9. Every link descriptor of the static [generate_connections] is a
    fixed link with RSSI -80 and quality 0.9 between two different nodes
    whose ids both appear in the position list of [generate_positions] for
    the same shape, and the list holds the reverse link as well. *)
Theorem static_connections_consistent (F : Type) (fl : float_ops F) (nc pc : nat)
    (c : connection) :
  In c (SmartHome.connection_entries nc pc) ->
  In (FROM_ID c) (map ID (SmartHome.position_entries fl nc pc))
  /\ In (TO_ID c) (map ID (SmartHome.position_entries fl nc pc))
  /\ FROM_ID c <> TO_ID c
  /\ (exists back, In back (SmartHome.connection_entries nc pc)
                   /\ FROM_ID back = TO_ID c /\ TO_ID back = FROM_ID c)
  /\ LINK_MODEL c = "Fixed" /\ RSSI c = (-80)%Z /\ LINK_QUALITY c = "0.9".
Proof.
  intros Hin.
  assert (Hint : intended nc pc (FROM_ID c) (TO_ID c)).
  { apply static_links_intended. rewrite <- static_links_unfolded.
    change (FROM_ID c, TO_ID c) with (endpoints c). now apply in_map. }
  destruct (intended_in_range Hint) as (Ha & Hb & Hne & Hback).
  rewrite static_position_ids.
  split; [apply in_seq; lia|]. split; [apply in_seq; lia|]. split; [exact Hne|].
  split.
  - apply static_links_once in Hback. rewrite <- static_links_unfolded in Hback.
    unfold emitted in Hback.
    assert (Hin' : In (TO_ID c, FROM_ID c)
                     (map endpoints (SmartHome.connection_entries nc pc))).
    { apply (count_occ_In link_eq_dec). lia. }
    apply in_map_iff in Hin'. destruct Hin' as (back & Hends & Hinback).
    exists back. split; [exact Hinback|].
    unfold endpoints in Hends. now injection Hends.
  - pose proof (static_entries_fixed nc pc) as Hall.
    rewrite Forall_forall in Hall. now apply Hall.
Qed.

Lemma static_connections_consistent_witness :
  let c := fixed 7 3 (-80) "0.9" in
  In c (SmartHome.connection_entries 2 3)
  /\ In (FROM_ID c) (map ID (SmartHome.position_entries sample_floats 2 3))
  /\ exists back, In back (SmartHome.connection_entries 2 3)
                  /\ FROM_ID back = TO_ID c /\ TO_ID back = FROM_ID c.
Proof.
  intros c.
  assert (Hin : In c (SmartHome.connection_entries 2 3)).
  { unfold c. cbv. do 11 right. now left. }
  destruct (static_connections_consistent sample_floats 2 3 c Hin)
    as (Hfrom & _ & _ & Hback & _).
  split; [exact Hin|]. split; [exact Hfrom|exact Hback].
Defined.

Lemma mobile_position_count {F : Type} (fl : float_ops F) (nc pc : nat) :
  List.length (Mobility.position_entries fl nc pc)
  = (1 + nc) + nc * (pc * 2 / 3) + nc * (pc - pc * 2 / 3).
Proof.
  pose proof (mobile_position_entries_unfolded fl nc pc) as H. cbv zeta in H.
  rewrite H. rewrite !length_app, length_map, length_seq.
  rewrite (length_rows (fun i j => mobile_static_entry fl nc (pc * 2 / 3) i j
                                    (2 + nc + i * (pc * 2 / 3) + j))).
  rewrite (length_rows (fun i j => mobile_mobile_entry fl nc i
                  (2 + nc + nc * (pc * 2 / 3) + i * (pc - pc * 2 / 3) + j))).
  cbn [List.length]. lia.
Qed.

(** X10. The node counts an experiment announces agree with the position
    list it carries, whatever options the caller passed: in the static
    variant [NUM_NODES] is the decimal text of the number of position
    entries; in the mobile variant the router, static-leaf and mobile-leaf
    counts add up to the number of position entries. *)
Theorem announced_node_counts (F : Type) (fl : float_ops F) (N : Type) (nc pc : nat)
    (options : dict optval) :
  dict_get (Common.options (SmartHome.Experiment_init fl N nc pc options)) "NUM_NODES"
  = Ok (OStr (str_of_nat (List.length (SmartHome.position_entries fl nc pc))))
  /\ exists routers statics mobiles,
       let mobile := Common.options (Mobility.Experiment_init fl N nc pc options) in
       dict_get mobile "NUM_ROUTER_NODES" = Ok (OStr (str_of_nat routers))
       /\ dict_get mobile "NUM_STATIC_LEAF_NODES" = Ok (OStr (str_of_nat statics))
       /\ dict_get mobile "NUM_MOBILE_LEAF_NODES" = Ok (OStr (str_of_nat mobiles))
       /\ routers + statics + mobiles = List.length (Mobility.position_entries fl nc pc).
Proof.
  split.
  - rewrite <- (length_map ID), static_position_ids, length_seq.
    unfold SmartHome.Experiment_init. cbv beta zeta match delta [Common.options].
    now lookup.
  - exists (1 + nc), (nc * (pc * 2 / 3)), (nc * (pc - pc * 2 / 3)).
    rewrite mobile_position_count.
    unfold Mobility.Experiment_init.
    cbv beta zeta match delta [Mobility.get_num_mobile_per_cluster Common.options].
    repeat split; now lookup.
Qed.

(* ================================================================== *)
(** * Names of experiments *)
(* ================================================================== *)

Lemma digits_of_uint (d : Decimal.uint) : digits_only (NilEmpty.string_of_uint d) = true.
Proof.
  induction d; simpl; auto.
Qed.

Lemma str_of_nat_digits (n : nat) : digits_only (str_of_nat n) = true.
Proof. apply digits_of_uint. Qed.

Lemma str_of_nat_inj (n m : nat) : str_of_nat n = str_of_nat m -> n = m.
Proof.
  unfold str_of_nat. intros H. apply Unsigned.to_uint_inj.
  apply (f_equal NilEmpty.uint_of_string) in H.
  rewrite !NilEmpty.usu in H. now injection H.
Qed.

(** Two texts that start with digits followed by an underscore agree on the
    digits and on the rest when they are equal. *)
Lemma digits_then_underscore (s1 s2 r1 r2 : string) :
  digits_only s1 = true -> digits_only s2 = true ->
  (s1 ++ String "_" r1)%string = (s2 ++ String "_" r2)%string ->
  s1 = s2 /\ r1 = r2.
Proof.
  revert s2. induction s1 as [|c1 s1 IH]; intros [|c2 s2] H1 H2 E; simpl in *.
  - injection E as <-. now split.
  - injection E as <- _. discriminate H2.
  - injection E as -> _. discriminate H1.
  - injection E as <- E.
    apply andb_prop in H1, H2. destruct H1 as [_ H1], H2 as [_ H2].
    destruct (IH s2 H1 H2 E) as [<- <-]. now split.
Qed.

Lemma shape_of_name (nc pc nc' pc' : nat) (tail tail' : string) :
  (str_of_nat nc ++ "_clusters_" ++ str_of_nat pc ++ String "_" tail)%string
  = (str_of_nat nc' ++ "_clusters_" ++ str_of_nat pc' ++ String "_" tail')%string ->
  nc = nc' /\ pc = pc' /\ tail = tail'.
Proof.
  intros E.
  apply digits_then_underscore in E; try apply str_of_nat_digits.
  destruct E as [Hnc E]. simpl in E. injection E as E.
  apply digits_then_underscore in E; try apply str_of_nat_digits.
  destruct E as [Hpc E].
  split; [now apply str_of_nat_inj|]. split; [now apply str_of_nat_inj|exact E].
Qed.

(** X11. Experiments of different shapes never share a name, and hence
    neither a results directory: the name of a static or of a mobile
    experiment determines its cluster count and per-cluster count, and a
    static experiment never has the name of a mobile one. *)
Theorem experiment_names_distinct (F : Type) (fl : float_ops F) (N : Type)
    (nc pc nc' pc' : nat) (options options' : dict optval) :
  (nc, pc) <> (nc', pc') ->
  name (SmartHome.Experiment_init fl N nc pc options)
  <> name (SmartHome.Experiment_init fl N nc' pc' options')
  /\ results_dir (SmartHome.Experiment_init fl N nc pc options)
     <> results_dir (SmartHome.Experiment_init fl N nc' pc' options')
  /\ name (Mobility.Experiment_init fl N nc pc options)
     <> name (Mobility.Experiment_init fl N nc' pc' options')
  /\ results_dir (Mobility.Experiment_init fl N nc pc options)
     <> results_dir (Mobility.Experiment_init fl N nc' pc' options')
  /\ (forall a b c d o o',
        name (SmartHome.Experiment_init fl N a b o)
        <> name (Mobility.Experiment_init fl N c d o')).
Proof.
  intros Hne.
  unfold SmartHome.Experiment_init, Mobility.Experiment_init.
  cbv beta zeta match delta [Common.name Common.results_dir].
  split; [|split; [|split; [|split]]]; try intros a b c d o o'; intros E.
  - apply (@shape_of_name nc pc nc' pc' "nodes" "nodes") in E.
    destruct E as (-> & -> & _). now apply Hne.
  - simpl in E. injection E as E.
    apply (@shape_of_name nc pc nc' pc' "nodes" "nodes") in E.
    destruct E as (-> & -> & _). now apply Hne.
  - apply (@shape_of_name nc pc nc' pc' "nodes_mobile" "nodes_mobile") in E.
    destruct E as (-> & -> & _). now apply Hne.
  - simpl in E. injection E as E.
    apply (@shape_of_name nc pc nc' pc' "nodes_mobile" "nodes_mobile") in E.
    destruct E as (-> & -> & _). now apply Hne.
  - apply (@shape_of_name _ _ _ _ "nodes" "nodes_mobile") in E.
    destruct E as (_ & _ & E). discriminate E.
Qed.

Lemma experiment_names_distinct_witness :
  name (SmartHome.Experiment_init sample_floats float 3 1 [])
  <> name (SmartHome.Experiment_init sample_floats float 3 10 []).
Proof.
  apply (@experiment_names_distinct float sample_floats float 3 1 3 10 [] []).
  intros H. discriminate H.
Defined.

(* ================================================================== *)
(** * The ratio functions of [main] *)
(* ================================================================== *)

(** X12. The ratio functions the smart-home [main] passes guard their
    division: when the denominator is zero they return 0.  Those of the
    result-visualization [main] have no guard: when the denominator is zero
    they return no value but raise ([ZeroDivisionError] for the delivery
    ratio), and otherwise their outcome is that of the guarded ones. *)
Theorem ratio_functions_guard (N : Type) (ops : num_ops N) (x y : N) :
  (if n_is_zero ops (n_add ops x y)
   then SmartHome.pdr ops (VNum x) (VNum y) = Ok (VNum (n_int ops 0))
        /\ ResultViz.pdr ops (VNum x) (VNum y) = Raise ZeroDivisionError
   else ResultViz.pdr ops (VNum x) (VNum y) = SmartHome.pdr ops (VNum x) (VNum y))
  /\ (if n_is_zero ops y
      then SmartHome.par ops (VNum x) (VNum y) = Ok (VNum (n_int ops 0))
           /\ exists e, ResultViz.par ops (VNum x) (VNum y) = Raise e
      else ResultViz.par ops (VNum x) (VNum y) = SmartHome.par ops (VNum x) (VNum y)).
Proof.
  unfold SmartHome.pdr, SmartHome.par, ResultViz.pdr, ResultViz.par.
  cbn [py_add py_mul py_bool py_truediv py_sub Py.bind].
  destruct (n_is_zero ops (n_add ops x y)) eqn:E1, (n_is_zero ops y) eqn:E2;
    cbn [negb py_add py_mul py_bool py_truediv py_sub Py.bind];
    rewrite ?E1, ?E2; cbn [py_add py_mul py_bool py_truediv py_sub Py.bind];
    repeat split; eauto.
Qed.

Lemma yerr_length {N : Type} (ops : num_ops N) (sub : value N -> value N -> result (value N))
    (xs ys zs : list (value N)) :
  for_inM (combine xs ys) (fun '(a, b) acc => d <- sub a b ;; Ok (acc ++ [d])) [] = Ok zs ->
  List.length zs = Nat.min (List.length xs) (List.length ys).
Proof.
  rewrite for_inM_collect with (keep := fun _ => true) (f := fun '(a, b) => sub a b).
  - rewrite filter_all. intros H.
    destruct (each _ (combine xs ys)) as [ds|e] eqn:E; [|discriminate].
    cbn [Py.bind app] in H. injection H as <-.
    rewrite (each_length _ _ E). apply length_combine.
  - now intros [a b] acc.
Qed.

(** X14. [plot] produces a chart only for at least one series, each with at
    least one value; the chart then has one bar, one lower and one upper
    error-bar length per series, and its tick labels are the names of the
    experiments, its axis label the title, its file ["plot <title>.pdf"]. *)
Theorem plot_success_shape (N : Type) (ops : num_ops N) (A : Type) (title : string)
    (experiments : list (Experiment N))
    (function : list (Experiment N) -> A -> SmartHome.aggregate
                -> result (list (list (value N))))
    (arguments : A) (aggregate_function : SmartHome.aggregate)
    (series : list (list (value N))) (c : chart N) :
  function experiments arguments aggregate_function = Ok series ->
  SmartHome.plot ops title experiments function arguments aggregate_function = Ok c ->
  series <> []
  /\ Forall (fun values => values <> []) series
  /\ List.length (bar_heights c) = List.length series
  /\ List.length (yerr_lower c) = List.length series
  /\ List.length (yerr_upper c) = List.length series
  /\ xticks c = map (fun exp => name exp) experiments
  /\ ylabel c = title
  /\ savefig c = ("plot " ++ title ++ ".pdf")%string.
Proof.
  intros Hf H. unfold SmartHome.plot in H. rewrite Hf in H. cbn [Py.bind] in H.
  destruct (reduce_series ops series) as [[[means mins] maxs]|e] eqn:Ered;
    [|discriminate].
  cbn [Py.bind] in H.
  destruct (reduce_series_spec _ _ Ered) as (Hmean & Hmin & Hmax).
  destruct (py_min ops mins) as [lowest|e] eqn:Elow; [|discriminate].
  cbn [Py.bind] in H.
  destruct (math_floor ops lowest) as [fl|e]; [|discriminate]. cbn [Py.bind] in H.
  destruct (py_max ops maxs) as [highest|e]; [|discriminate]. cbn [Py.bind] in H.
  destruct (math_ceil ops highest) as [ce|e]; [|discriminate]. cbn [Py.bind] in H.
  destruct (lower_yerr ops means mins) as [lo|e] eqn:Elo; [|discriminate].
  cbn [Py.bind] in H.
  destruct (upper_yerr ops means maxs) as [up|e] eqn:Eup; [|discriminate].
  cbn [Py.bind] in H. injection H as <-. cbn [bar_heights yerr_lower yerr_upper xticks
                                              ylabel savefig].
  pose proof (each_length _ _ Hmean) as Lmean.
  pose proof (each_length _ _ Hmin) as Lmin.
  pose proof (each_length _ _ Hmax) as Lmax.
  apply yerr_length in Elo; [|exact ops]. apply yerr_length in Eup; [|exact ops].
  repeat split; try lia.
  - intros ->. cbn [each] in Hmin. injection Hmin as <-. discriminate Elow.
  - apply Forall_forall. intros values Hin ->.
    destruct (each_In _ _ _ Hmin Hin) as (mn & Hmn & _). discriminate Hmn.
Qed.

Lemma plot_success_shape_witness :
  exists c : chart float,
    SmartHome.plot binary64 "Application PDR, %" []
      (fun _ _ _ => Ok [ [VNum 90%float; VNum 95%float]; [VNum 87.5%float] ])
      tt (SmartHome.mean binary64) = Ok c
    /\ List.length (bar_heights c) = 2%nat
    /\ List.length (yerr_lower c) = 2%nat
    /\ List.length (yerr_upper c) = 2%nat.
Proof.
  eexists. split; [reflexivity|].
  refine (let H := @plot_success_shape float binary64 unit "Application PDR, %" []
                     (fun _ _ _ => Ok [ [VNum 90%float; VNum 95%float]; [VNum 87.5%float] ])
                     tt (SmartHome.mean binary64) _ _ eq_refl eq_refl in _).
  destruct H as (_ & _ & H1 & H2 & H3 & _). repeat split; assumption.
Defined.

(** X15. When [plot] is run on [extract_metric] and produces a chart, the
    chart has exactly one bar per experiment, in step with the tick labels,
    and every experiment had loaded results with at least one run other
    than ["aggregate-stats"]: an experiment without such a run makes [plot]
    raise. *)
Theorem plot_of_extract_metric (N : Type) (ops : num_ops N) (title : string)
    (experiments : list (Experiment N)) (metric_name : string) (default_value : value N)
    (aggregate_function : SmartHome.aggregate) (c : chart N) :
  SmartHome.plot ops title experiments (@SmartHome.extract_metric N)
    (metric_name, default_value) aggregate_function = Ok c ->
  List.length (bar_heights c) = List.length experiments
  /\ List.length (xticks c) = List.length experiments
  /\ Forall (fun exp => exists tree, results exp = Some tree /\ usable tree <> [])
       experiments.
Proof.
  intros H. unfold SmartHome.plot in H.
  destruct (SmartHome.extract_metric experiments (metric_name, default_value)
              aggregate_function) as [series|e] eqn:Hf; [|discriminate].
  cbn [Py.bind] in H.
  destruct (reduce_series ops series) as [[[means mins] maxs]|e] eqn:Ered;
    [|discriminate].
  cbn [Py.bind] in H.
  destruct (reduce_series_spec _ _ Ered) as (Hmean & Hmin & _).
  bind_inv H. injection H as <-. cbn [bar_heights xticks].
  rewrite extract_metric_refines in Hf. unfold extractMetric in Hf.
  split; [|split].
  - rewrite (each_length _ _ Hmean). eapply each_length; exact Hf.
  - apply length_map.
  - apply each_Forall2 in Hf. apply each_Forall2 in Hmin.
    clear - Hf Hmin. revert mins Hmin.
    induction Hf as [|exp values exps series Hexp _ IH]; intros mins Hmin;
      [constructor|].
    inversion Hmin as [|? mn ? mins' Hmn Hrest]; subst.
    constructor; [|now apply (IH mins')].
    unfold results_of in Hexp. destruct (results exp) as [tree|]; [|discriminate].
    exists tree. split; [reflexivity|]. intros Hempty.
    cbn [Py.bind] in Hexp. rewrite Hempty in Hexp. cbn [each] in Hexp.
    injection Hexp as <-. discriminate Hmn.
Qed.

Lemma plot_of_extract_metric_witness :
  let exp : Experiment float :=
    {| name := "e"; results_dir := "./results-e"; options := [];
       results := Some [ ("0", [("2", [("m", VNum (float_of_Z 5))])]);
                         ("1", [("2", [("m", VNum (float_of_Z 7))])]) ] |} in
  exists c : chart float,
    SmartHome.plot binary64 "RPL parent switches" [exp] (@SmartHome.extract_metric float)
      ("m", VNum (float_of_Z 0)) (SmartHome.mean binary64) = Ok c
    /\ List.length (bar_heights c) = 1%nat.
Proof.
  intros exp. eexists. split; [reflexivity|].
  refine (proj1 (@plot_of_extract_metric float binary64 "RPL parent switches" [exp]
                   "m" (VNum (float_of_Z 0)) (SmartHome.mean binary64) _ eq_refl)).
Defined.

(* ================================================================== *)
(** * Options of the result-visualization experiment *)
(* ================================================================== *)

(** X16. The constructor of the result-visualization script merges in the
    order defaults, caller's options, results directory: ["RESULTS_DIR"] is
    always ["./results-<name>"], also when the caller passes it, so the
    default ["results"] is never what is stored; every other key of the
    caller holds the caller's value; a key that is neither holds its
    default, if it has one. *)
Theorem viz_experiment_options_precedence (N : Type) (name : string)
    (options : dict optval) :
  NoDup (dict_keys options) ->
  let exp := ResultViz.Experiment_init N name options in
  dict_get (Common.options exp) "RESULTS_DIR" = Ok (OStr ("./results-" ++ name)%string)
  /\ dict_get (Common.options exp) "RESULTS_DIR" = Ok (OStr (results_dir exp))
  /\ dict_get (Common.options exp) "RESULTS_DIR" <> Ok (OStr "results")
  /\ (forall k v, k <> "RESULTS_DIR" -> dict_get options k = Ok v ->
        dict_get (Common.options exp) k = Ok v)
  /\ (forall k, k <> "RESULTS_DIR" -> ~ In k (dict_keys options) ->
        dict_get (Common.options exp) k = dict_get ResultViz.DEFAULT_OPTIONS k)
  /\ results exp = None.
Proof.
  intros Hnd exp. subst exp. unfold ResultViz.Experiment_init.
  cbv beta zeta match delta [Common.options Common.results_dir Common.results].
  split; [|split; [|split; [|split; [|split]]]].
  - now lookup.
  - now lookup.
  - lookup. discriminate.
  - intros k v Hk Hget. lookup. now apply copied_options_present.
  - intros k Hk Hnot. lookup. now rewrite copied_options_absent.
  - reflexivity.
Qed.

Lemma viz_experiment_options_precedence_witness :
  let options := [("RESULTS_DIR", OStr "elsewhere"); ("ORCHESTRA_UNICAST_PERIOD", OInt 11)] in
  let exp := ResultViz.Experiment_init float "exp1" options in
  dict_get (Common.options exp) "RESULTS_DIR" = Ok (OStr "./results-exp1")
  /\ dict_get (Common.options exp) "ORCHESTRA_UNICAST_PERIOD" = Ok (OInt 11)
  /\ dict_get (Common.options exp) "TSCH_SCHEDULE_CONF_DEFAULT_LENGTH" = Ok (OInt 7).
Proof.
  intros options exp.
  assert (Hnd : NoDup (dict_keys options)).
  { repeat constructor; simpl; intuition discriminate. }
  pose proof (@viz_experiment_options_precedence float "exp1" options Hnd) as H.
  cbv zeta in H. destruct H as (Hdir & _ & _ & Hcaller & Hdefault & _).
  split; [exact Hdir|]. split.
  - apply Hcaller; [discriminate|reflexivity].
  - rewrite Hdefault; [reflexivity|discriminate|simpl; intuition discriminate].
Defined.

(* ================================================================== *)
(** * Paired extraction of the result-visualization script *)
(* ================================================================== *)

Section PairedTotals.
Context {N : Type} (ops : num_ops N) (metric1_name metric2_name : string).

(** The node loop of the paired extraction, when it runs through: the count
    grows by the counted nodes, all of which held both metrics as numbers,
    and both totals are numbers. *)
Lemma viz_pair_node_loop (nodes : dict (dict (value N))) (s1 s2 : N) (n : nat)
    (total1 total2 : value N) (num_nodes : nat) :
  for_inM nodes (fun '(node, node_results) '(total1, total2, num_nodes) =>
    if str_in node ["global-stats"; "1"] then Ok (total1, total2, num_nodes)
    else
      v1 <- dict_get node_results metric1_name ;;
      total1 <- py_add ops total1 v1 ;;
      v2 <- dict_get node_results metric2_name ;;
      total2 <- py_add ops total2 v2 ;;
      Ok (total1, total2, num_nodes + 1)) (VNum s1, VNum s2, n)
  = Ok (total1, total2, num_nodes) ->
  num_nodes = n + List.length (filter counted_node nodes)
  /\ (exists t1 t2, total1 = VNum t1 /\ total2 = VNum t2)
  /\ Forall (fun entry =>
       counted_node entry = true ->
       exists x1 x2,
         dict_get (snd entry) metric1_name = Ok (VNum x1)
         /\ dict_get (snd entry) metric2_name = Ok (VNum x2)) nodes.
Proof.
  revert s1 s2 n. induction nodes as [|[node node_results] nodes IH]; intros s1 s2 n H.
  - cbn [for_inM] in H. injection H as <- <- <-. cbn [filter List.length].
    split; [lia|]. split; [now exists s1, s2|constructor].
  - cbn [for_inM filter] in H |- *.
    assert (Hkeep : counted_node (node, node_results) = negb (reserved_node node))
      by reflexivity.
    rewrite Hkeep. rewrite (str_in_reserved node) in H.
    destruct (reserved_node node); cbn [negb Py.bind] in H, Hkeep |- *.
    + destruct (IH _ _ _ H) as (Hn & Ht & Hall).
      split; [exact Hn|]. split; [exact Ht|].
      constructor; [rewrite Hkeep; discriminate|exact Hall].
    + destruct (dict_get node_results metric1_name) as [[x1|]|e] eqn:E1;
        cbn [Py.bind py_add] in H; try discriminate.
      destruct (dict_get node_results metric2_name) as [[x2|]|e] eqn:E2;
        cbn [Py.bind py_add] in H; try discriminate.
      destruct (IH _ _ _ H) as (Hn & Ht & Hall).
      split; [cbn [List.length]; lia|]. split; [exact Ht|].
      constructor; [intros _; cbn [snd]; rewrite E1, E2; now exists x1, x2|exact Hall].
Qed.

End PairedTotals.

(** The run loop of the paired extraction, when it runs through. *)
Lemma viz_pair_run_loop {N : Type} (ops : num_ops N) (metric1_name metric2_name : string)
    (tree : results_tree N) (acc1 acc2 exp_results1 exp_results2 : list (value N)) :
  n_is_zero ops (n_int ops 0) = true ->
  for_inM tree (fun '(run, run_results) '(exp_results1, exp_results2) =>
    '(total1, total2, num_nodes) <-
      for_inM run_results (fun '(node, node_results) '(total1, total2, num_nodes) =>
        if str_in node ["global-stats"; "1"] then Ok (total1, total2, num_nodes)
        else
          v1 <- dict_get node_results metric1_name ;;
          total1 <- py_add ops total1 v1 ;;
          v2 <- dict_get node_results metric2_name ;;
          total2 <- py_add ops total2 v2 ;;
          Ok (total1, total2, num_nodes + 1))
        (VNum (n_int ops 0), VNum (n_int ops 0), 0) ;;
    avg1 <- py_truediv ops total1 (VNum (n_int ops (Z.of_nat num_nodes))) ;;
    avg2 <- py_truediv ops total2 (VNum (n_int ops (Z.of_nat num_nodes))) ;;
    Ok (exp_results1 ++ [avg1], exp_results2 ++ [avg2])) (acc1, acc2)
  = Ok (exp_results1, exp_results2) ->
  List.length exp_results1 = List.length acc1 + List.length tree
  /\ List.length exp_results2 = List.length acc2 + List.length tree
  /\ Forall (fun '(run, nodes) =>
       existsb counted_node nodes = true
       /\ Forall (fun entry =>
            counted_node entry = true ->
            exists x1 x2,
              dict_get (snd entry) metric1_name = Ok (VNum x1)
              /\ dict_get (snd entry) metric2_name = Ok (VNum x2)) nodes) tree.
Proof.
  intros Hzero. revert acc1 acc2.
  induction tree as [|[run nodes] tree IH]; intros acc1 acc2 H.
  - cbn [for_inM] in H. injection H as <- <-. cbn [List.length].
    split; [lia|]. split; [lia|constructor].
  - cbn [for_inM] in H.
    match type of H with
    | context [for_inM nodes ?body ?init] =>
        destruct (for_inM nodes body init) as [[[total1 total2] num_nodes]|e] eqn:Enodes;
          [|discriminate]
    end.
    cbn [Py.bind] in H.
    destruct (viz_pair_node_loop _ _ _ _ _ _ _ Enodes) as (Hn & (t1 & t2 & -> & ->) & Hall).
    cbn [Nat.add] in Hn.
    destruct (existsb counted_node nodes) eqn:Ecounted.
    + unfold py_truediv in H.
      destruct (n_is_zero ops (n_int ops (Z.of_nat num_nodes))); [discriminate|].
      cbn [Py.bind] in H.
      destruct (IH _ _ H) as (L1 & L2 & Hrest).
      rewrite length_app in L1, L2. cbn [List.length] in L1, L2 |- *.
      split; [lia|]. split; [lia|]. constructor; [|exact Hrest].
      split; [exact Ecounted|exact Hall].
    + rewrite (filter_none _ _ Ecounted) in Hn. cbn [List.length] in Hn. subst num_nodes.
      unfold py_truediv in H. cbn [Z.of_nat] in H. rewrite Hzero in H. discriminate.
Qed.

(** X18. When [extract_metrics] of the result-visualization script returns
    (an arithmetic in which the int 0 is zero), every experiment had loaded
    results, the result holds one value for every run of the tree, none
    skipped, every run had at least one node other than ["1"] and
    ["global-stats"], and every such node held both metrics as numbers:
    neither a default nor a guard against an empty run exists. *)
Theorem viz_extract_metrics_success_shape (N : Type) (ops : num_ops N)
    (experiments : list (Experiment N)) (metric1_name metric2_name : string)
    (function : value N -> value N -> result (value N))
    (extracted : list (list (value N))) :
  n_is_zero ops (n_int ops 0) = true ->
  ResultViz.extract_metrics ops experiments (metric1_name, metric2_name, function)
  = Ok extracted ->
  Forall2 (fun exp series =>
    exists tree,
      results exp = Some tree
      /\ List.length series = List.length tree
      /\ forall run nodes, In (run, nodes) tree ->
           existsb counted_node nodes = true
           /\ forall node node_results,
                In (node, node_results) nodes -> reserved_node node = false ->
                exists x1 x2,
                  dict_get node_results metric1_name = Ok (VNum x1)
                  /\ dict_get node_results metric2_name = Ok (VNum x2))
    experiments extracted.
Proof.
  intros Hzero. unfold ResultViz.extract_metrics.
  rewrite for_inM_collect with (keep := fun _ => true)
    (f := fun exp =>
       exp_results_tree <- results_of exp ;;
       ' (exp_results1, exp_results2) <-
         for_inM exp_results_tree (fun '(run, run_results) '(exp_results1, exp_results2) =>
           '(total1, total2, num_nodes) <-
             for_inM run_results (fun '(node, node_results) '(total1, total2, num_nodes) =>
               if str_in node ["global-stats"; "1"] then Ok (total1, total2, num_nodes)
               else
                 v1 <- dict_get node_results metric1_name ;;
                 total1 <- py_add ops total1 v1 ;;
                 v2 <- dict_get node_results metric2_name ;;
                 total2 <- py_add ops total2 v2 ;;
                 Ok (total1, total2, num_nodes + 1))
               (VNum (n_int ops 0), VNum (n_int ops 0), 0) ;;
           avg1 <- py_truediv ops total1 (VNum (n_int ops (Z.of_nat num_nodes))) ;;
           avg2 <- py_truediv ops total2 (VNum (n_int ops (Z.of_nat num_nodes))) ;;
           Ok (exp_results1 ++ [avg1], exp_results2 ++ [avg2])) ([], []) ;;
       for_inM (combine exp_results1 exp_results2) (fun '(x, y) acc =>
         r <- function x y ;; Ok (acc ++ [r])) []).
  2:{ intros exp acc. destruct (results_of exp) as [tree|e]; cbn [Py.bind]; [|reflexivity].
      match goal with
      | |- context [for_inM tree ?body ?init] =>
          destruct (for_inM tree body init) as [[r1 r2]|e]; cbn [Py.bind]; [|reflexivity]
      end.
      reflexivity. }
  rewrite filter_all. intros H.
  destruct (each _ experiments) as [ys|e] eqn:E; [|discriminate].
  cbn [Py.bind app] in H. injection H as <-.
  apply each_Forall2 in E.
  eapply Forall2_impl; [|exact E]. clear E. intros exp series H.
  unfold results_of in H. destruct (results exp) as [tree|]; [|discriminate].
  cbn [Py.bind] in H. exists tree. split; [reflexivity|].
  match type of H with
  | context [for_inM tree ?body ?init] =>
      destruct (for_inM tree body init) as [[r1 r2]|e] eqn:Eruns; [|discriminate]
  end.
  cbn [Py.bind] in H.
  destruct (viz_pair_run_loop _ _ _ _ _ _ Hzero Eruns) as (L1 & L2 & Hall).
  cbn [List.length Nat.add] in L1, L2.
  apply yerr_length in H; [|exact ops].
  split; [lia|].
  intros run nodes Hrun. rewrite Forall_forall in Hall.
  destruct (Hall _ Hrun) as (Hcounted & Hnodes).
  split; [exact Hcounted|].
  intros node node_results Hnode Hreserved. rewrite Forall_forall in Hnodes.
  apply (Hnodes _ Hnode). unfold counted_node. cbn [fst]. now rewrite Hreserved.
Qed.

Lemma viz_extract_metrics_success_shape_witness :
  let exp : Experiment float :=
    {| name := "e"; results_dir := "./results-e"; options := [];
       results := Some [ ("0", [ ("1", []);
                                 ("2", [("lost", VNum (float_of_Z 1));
                                        ("received", VNum (float_of_Z 9))]) ]);
                         ("aggregate-stats",
                          [ ("7", [("lost", VNum (float_of_Z 0));
                                   ("received", VNum (float_of_Z 4))]) ]) ] |} in
  Forall2 (fun exp series =>
    exists tree,
      results exp = Some tree
      /\ List.length series = List.length tree
      /\ forall run nodes, In (run, nodes) tree ->
           existsb counted_node nodes = true
           /\ forall node node_results,
                In (node, node_results) nodes -> reserved_node node = false ->
                exists x1 x2,
                  dict_get node_results "lost" = Ok (VNum x1)
                  /\ dict_get node_results "received" = Ok (VNum x2))
    [exp] [[VNum 90%float; VNum 100%float]].
Proof.
  intros exp.
  apply (@viz_extract_metrics_success_shape float binary64 [exp] "lost" "received"
           (ResultViz.pdr binary64)); reflexivity.
Defined.
